(** * registrant: the dual-backend geodatabase reader

    A shallow embedding of [registrant/_geodatabase.py] (class
    [Geodatabase]) and the properties its specification states about it.

    The module reads an Esri geodatabase through one of two libraries:
    [arcpy] when it can be imported ([arcpy_found = True]) and [ogr]
    otherwise.  Neither library, nor the descriptor classes of
    [_data_objects.py], nor the label tables of [_util_mappings.py] are part
    of the file: they appear here as the fields of two interfaces,
    [Mappings] and [Backend], and every definition below is parametric in
    them. *)

From Stdlib Require Import Floats.PrimFloat Numbers.Cyclic.Int63.Uint63.
From stdpp Require Import gmap strings list.

Open Scope string_scope.
Open Scope list_scope.

(* ===================================================================== *)
(** ** Python values and exceptions                                       *)
(* ===================================================================== *)

(** The exceptions the module can meet.  All of them are instances of
    Python's [Exception], so [except Exception] catches each one.
    [BackendError] stands for whatever the external libraries raise. *)
Inductive exn : Type :=
| AttributeError
| TypeError
| ValueError
| IndexError
| UnboundLocalError
| KeyError (key : string)
| ParseError
| BackendError (msg : string).

(** An expression either evaluates to a value or raises. *)
Inductive result (A : Type) : Type :=
| Ok (a : A)
| Raise (e : exn).
Arguments Ok {A} a.
Arguments Raise {A} e.

#[global] Instance result_ret : MRet result := fun _ a => Ok a.
#[global] Instance result_bind : MBind result := fun _ _ f r =>
  match r with
  | Ok a => f a
  | Raise e => Raise e
  end.

Definition is_ok {A} (r : result A) : bool :=
  match r with Ok _ => true | Raise _ => false end.

(** [for x in xs: body], the loop state threaded through as [acc]; the
    first iteration that raises ends the loop. *)
Fixpoint foldM `{MBind m, MRet m} {A B} (f : A -> B -> m A) (acc : A) (xs : list B) : m A :=
  match xs with
  | [] => mret acc
  | x :: rest => acc' ← f acc x; foldM f acc' rest
  end.

(** The values stored in the property mappings.  A range is the pair of
    floats built by the fallback path; a coded-value table is a plain
    [dict] from code to name, both of them [Element.text] values and hence
    possibly [None].  [VOpaque] is any backend-native value that the module
    only passes through. *)
Inductive Value : Type :=
| VStr (s : string)
| VInt (n : Z)
| VRange (lo hi : float)
| VDict (d : gmap (option string) (option string))
| VOpaque (repr : string).

(** Python truthiness of [Element.text]: [None] and [''] are false. *)
Definition truthy (t : option string) : bool :=
  match t with
  | None | Some "" => false
  | Some _ => true
  end.

(* --------------------------------------------------------------------- *)
(** *** [collections.OrderedDict] with string keys                        *)
(* --------------------------------------------------------------------- *)

Module OD.

Definition t (V : Type) : Type := list (string * V).

(** [od[k] = v]: an existing key keeps its position, a new key goes last. *)
Fixpoint set {V} (k : string) (v : V) (od : t V) : t V :=
  match od with
  | [] => [(k, v)]
  | (k', v') :: rest =>
      if decide (k' = k) then (k, v) :: rest else (k', v') :: set k v rest
  end.

Fixpoint get {V} (k : string) (od : t V) : option V :=
  match od with
  | [] => None
  | (k', v') :: rest => if decide (k' = k) then Some v' else get k rest
  end.

(** [list(od.keys())] *)
Definition keys {V} (od : t V) : list string := od.*1.

(** The key sequence left by assigning the labels [ls] in turn. *)
Fixpoint add_key (k : string) (ks : list string) : list string :=
  match ks with
  | [] => [k]
  | k' :: rest => if decide (k' = k) then ks else k' :: add_key k rest
  end.

Definition add_keys (ks ls : list string) : list string :=
  foldl (fun acc l => add_key l acc) ks ls.

End OD.

Abbreviation OrderedDict := (OD.t Value).

(* --------------------------------------------------------------------- *)
(** *** [xml.etree.ElementTree] elements                                  *)
(* --------------------------------------------------------------------- *)

Module ET.

#[warnings="-register-all"]
Inductive Element : Type :=
| Elem (tag : string) (text : option string) (children : list Element).

Definition tag (e : Element) : string := let 'Elem t _ _ := e in t.
Definition text (e : Element) : option string := let 'Elem _ x _ := e in x.
Definition children (e : Element) : list Element := let 'Elem _ _ c := e in c.

(** [e.findall(k)] for a plain tag name [k]: the direct children with
    that tag, in document order. *)
Definition findall (e : Element) (k : string) : list Element :=
  filter (fun c => tag c = k) (children e).

(** [e.find(k)]: the first such child, or [None]. *)
Definition find (e : Element) (k : string) : option Element :=
  head (findall e k).

(** [e.find(k).text]: attribute access on [None] raises. *)
Definition find_text (e : Element) (k : string) : result (option string) :=
  match find e k with
  | None => Raise AttributeError
  | Some c => Ok (text c)
  end.

End ET.
Import ET.

(** [try: body  except AttributeError: handler] on a pure expression. *)
Definition except_AttributeError {A} (body : result A) (handler : A) : result A :=
  match body with
  | Raise AttributeError => Ok handler
  | r => r
  end.

(** ASCII [str.lower()] and the substring test [needle in hay]. *)
Definition lower_char (c : Ascii.ascii) : Ascii.ascii :=
  let n := Ascii.N_of_ascii c in
  if ((65 <=? n) && (n <=? 90))%N then Ascii.ascii_of_N (n + 32) else c.

Fixpoint lower (s : string) : string :=
  match s with
  | EmptyString => EmptyString
  | String c rest => String (lower_char c) (lower rest)
  end.

Fixpoint contains (needle hay : string) : bool :=
  String.prefix needle hay ||
  match hay with
  | EmptyString => false
  | String _ rest => contains needle rest
  end.

(* ===================================================================== *)
(** ** The collaborators that are not in the file                         *)
(* ===================================================================== *)

(** [_util_mappings.py]: the static label tables.  Those that the module
    walks with [.items()] are association lists in iteration order; those
    it only looks keys up in are finite maps. *)
Class Mappings : Type := {
  GDB_RELEASE : gmap string string;
  GDB_WKSPC_TYPE : list (string * string);
  GDB_PROPS : list (string * string);
  GDB_DOMAIN_PROPS : list (string * string);
  GDB_TABLE_PROPS : list (string * string);
  GDB_FC_PROPS : list (string * string);
  OGR_GDB_DOMAIN_PROPS : list (string * string);
  OGR_DOMAIN_PROPS_MAPPINGS : gmap string string
}.

(** A backend object as the module uses one: attributes can be read (a
    missing attribute raises [AttributeError], a property may raise
    anything) and descriptors can count their rows. *)
Record PyObject : Type := {
  py_getattr : string -> result Value;
  get_row_count : result Value
}.

(** [getattr(o, k, default)] *)
Definition getattr (o : PyObject) (k : string) (default : Value) : result Value :=
  except_AttributeError (py_getattr o k) default.

(** An [ogr] layer and an opened [ogr] data source.  [ExecuteSQL_GDB_Items]
    is the [Definition] column of [select * from GDB_Items], row by row
    ([None] for a null). *)
Record Layer : Type := {
  GetName : string;
  GetGeometryColumn : string
}.

Record DataSource : Type := {
  layers : list Layer;
  ExecuteSQL_GDB_Items : result (list (option string))
}.

(** The two libraries, the descriptor classes of [_data_objects.py] and the
    builtins whose result the module depends on.  The [arcpy] listing
    functions and [arcpy.Describe] read [arcpy.env.workspace], which is the
    first argument here.  [ogr.Open] returns [None] for a path it cannot
    open. *)
Class Backend : Type := {
  arcpy_found : bool;
  arcpy_Describe : option string -> string -> result PyObject;
  arcpy_da_ListDomains : string -> result (list PyObject);
  arcpy_ListTables : option string -> result (list string);
  arcpy_ListDatasets : option string -> result (list string);
  arcpy_ListFeatureClasses : option string -> result (list string);
  Table : Value -> result PyObject;
  FeatureClass : Value -> result PyObject;
  ogr_Open : string -> option DataSource;
  TableOgr : string -> string -> result PyObject;
  FeatureClassOgr : string -> string -> result PyObject;
  ET_fromstring : string -> result Element;
  float_of_str : string -> option float;
  os_path_join : string -> string -> string
}.

(** [float(t)] for an [Element.text]: [float(None)] is a [TypeError];
    [float] of a string is a number or, when the builtin (here
    [float_of_str]) rejects it, a [ValueError]. *)
Definition float_of_text {B : Backend} (t : option string) : result float :=
  match t with
  | None => Raise TypeError
  | Some s => match float_of_str s with
              | Some x => Ok x
              | None => Raise ValueError
              end
  end.

(* ===================================================================== *)
(** ** Interpreter state                                                  *)
(* ===================================================================== *)

(** What [print] writes: the two messages of the module. *)
Inductive notice : Type :=
| CouldNotReadTable (tbl : string) (e : exn)
| Printed (e : exn).

(** The mutable state the methods can reach: the attributes of [self]
    (its [__dict__]), the global [arcpy.env.workspace], and standard output. *)
Record pystate : Type := {
  self_dict : gmap string string;
  env_workspace : option string;
  stdout : list notice
}.

Definition M (A : Type) : Type := pystate -> result A * pystate.

#[global] Instance M_ret : MRet M := fun _ a s => (Ok a, s).
#[global] Instance M_bind : MBind M := fun _ _ f c s =>
  match c s with
  | (Ok a, s') => f a s'
  | (Raise e, s') => (Raise e, s')
  end.

Definition lift {A} (r : result A) : M A := fun s => (r, s).

(** [self.k] *)
Definition self_attr (k : string) : M string := fun s =>
  (match self_dict s !! k with
   | Some v => Ok v
   | None => Raise AttributeError
   end, s).

(** [self.__dict__[k]] *)
Definition self_dict_item (k : string) : M string := fun s =>
  (match self_dict s !! k with
   | Some v => Ok v
   | None => Raise (KeyError k)
   end, s).

(** [self.k = v] *)
Definition set_self_attr (k v : string) : M unit := fun s =>
  (Ok tt, {| self_dict := <[k := v]> (self_dict s);
             env_workspace := env_workspace s;
             stdout := stdout s |}).

Definition get_workspace : M (option string) := fun s => (Ok (env_workspace s), s).

(** [arcpy.env.workspace = w] *)
Definition set_workspace (w : string) : M unit := fun s =>
  (Ok tt, {| self_dict := self_dict s;
             env_workspace := Some w;
             stdout := stdout s |}).

Definition print (n : notice) : M unit := fun s =>
  (Ok tt, {| self_dict := self_dict s;
             env_workspace := env_workspace s;
             stdout := stdout s ++ [n] |}).

(** [try: body  except Exception as e: handler(e)] *)
Definition try_except {A} (body : M A) (handler : exn -> M A) : M A := fun s =>
  match body s with
  | (Raise e, s') => handler e s'
  | r => r
  end.

(* ===================================================================== *)
(** ** class Geodatabase                                                  *)
(* ===================================================================== *)

Section Geodatabase.
Context {T : Mappings} {B : Backend}.

(** The loop that fills a property mapping,
    [for k, v in PROPS.items(): od[v] = <value for k>], the value computed
    by [g]. *)
Definition fill_props (g : string -> result Value) (props : list (string * string))
  : result OrderedDict :=
  foldM (fun od '(k, v) => x ← g k; mret (OD.set v x od)) [] props.

(** With [od[v] = getattr(inst, k, '')] as the body. *)
Definition props_of (props : list (string * string)) (inst : PyObject)
  : result OrderedDict :=
  fill_props (fun k => getattr inst k (VStr "")) props.

(** The tail shared by the table and feature-class loops:
    [od['Row count'] = inst.get_row_count()]. *)
Definition with_row_count (props : list (string * string)) (inst : PyObject)
  : result OrderedDict :=
  od ← props_of props inst;
  n ← get_row_count inst;
  mret (OD.set "Row count" n od).

(** [ds = ogr.Open(self.path, 0)] followed by a method call on [ds]. *)
Definition ogr_open (p : string) : result DataSource :=
  match ogr_Open p with
  | Some ds => Ok ds
  | None => Raise AttributeError
  end.

(* --------------------------------------------------------------------- *)
(** *** get_pretty_props                                                  *)
(* --------------------------------------------------------------------- *)

Definition get_pretty_props : M OrderedDict :=
  foldM (fun od '(k, v) => x ← self_dict_item k; mret (OD.set v (VStr x) od))
        [] GDB_PROPS.

(* --------------------------------------------------------------------- *)
(** *** _ogr_get_gdb_metadata, _ogr_get_domains                           *)
(* --------------------------------------------------------------------- *)

(** The loop of [_ogr_get_gdb_metadata]; [xml] is the local variable, not
    yet bound when [None]. *)
Fixpoint metadata_loop (rows : list (option string)) (xml : option Element)
  : result (option Element) :=
  match rows with
  | [] => Ok xml
  | item :: rest =>
      if truthy item then
        x ← ET_fromstring (default "" item);
        if decide (tag x = "DEWorkspace") then Ok (Some x)
        else metadata_loop rest (Some x)
      else metadata_loop rest xml
  end.

Definition _ogr_get_gdb_metadata : M Element :=
  p ← self_attr "path";
  lift (ds ← ogr_open p;
        rows ← ExecuteSQL_GDB_Items ds;
        xml ← metadata_loop rows None;
        match xml with
        | Some x => Ok x
        | None => Raise UnboundLocalError
        end).

(** [domains[xml.tag].append(xml)] on a [defaultdict(list)].  The dict is
    a finite map; where the module walks it with [.items()], [map_to_list]
    stands for the order of the entries, which the interpreter of the time
    leaves unspecified and no statement below depends on. *)
Definition defaultdict_append (k : string) (x : Element)
    (d : gmap string (list Element)) : gmap string (list Element) :=
  <[k := default [] (d !! k) ++ [x]]> d.

Definition domains_step (domains : gmap string (list Element))
    (item : option string) : result (gmap string (list Element)) :=
  if truthy item then
    xml ← ET_fromstring (default "" item);
    if bool_decide (tag xml ∈ ["GPCodedValueDomain2"; "GPRangeDomain2"])
    then Ok (defaultdict_append (tag xml) xml domains)
    else Ok domains
  else Ok domains.

Definition _ogr_get_domains : M (gmap string (list Element)) :=
  p ← self_attr "path";
  lift (ds ← ogr_open p;
        rows ← ExecuteSQL_GDB_Items ds;
        foldM domains_step ∅ rows).

(* --------------------------------------------------------------------- *)
(** *** get_domains                                                       *)
(* --------------------------------------------------------------------- *)

(** The dict comprehension
    [{cv.find('Code').text: cv.find('Name').text for cv in cvs}]. *)
Definition coded_values (cvs : list Element)
  : result (gmap (option string) (option string)) :=
  foldM (fun d cv =>
           code ← find_text cv "Code";
           name ← find_text cv "Name";
           mret (<[code := name]> d))
        ∅ cvs.

(** The value stored under the label of key [k] for one domain of the
    fallback path: the [if]/[elif] chain of the inner loop. *)
Definition ogr_domain_prop (domain_type : string) (domain : Element) (k : string)
  : result Value :=
  if decide (k = "domainType") then
    match OGR_DOMAIN_PROPS_MAPPINGS !! domain_type with
    | Some l => Ok (VStr l)
    | None => Raise (KeyError domain_type)
    end
  else if decide (k = "range") then
    except_AttributeError
      (lo_text ← find_text domain "MinValue";
       lo ← float_of_text lo_text;
       hi_text ← find_text domain "MaxValue";
       hi ← float_of_text hi_text;
       mret (VRange lo hi))
      (VStr "")
  else if decide (k = "codedValues") then
    except_AttributeError
      (match find domain "CodedValues" with
       | None => Raise AttributeError
       | Some c => d ← coded_values (findall c "CodedValue"); mret (VDict d)
       end)
      (VStr "")
  else
    except_AttributeError
      (t ← find_text domain k;
       if truthy t then
         let s := default "" t in
         mret (VStr (default s (OGR_DOMAIN_PROPS_MAPPINGS !! s)))
       else mret (VStr ""))
      (VStr "").

Definition ogr_domain_props (domain_type : string) (domain : Element)
  : result OrderedDict :=
  fill_props (ogr_domain_prop domain_type domain) OGR_GDB_DOMAIN_PROPS.

Definition get_domains : M (list OrderedDict) :=
  if arcpy_found then
    p ← self_attr "path";
    lift (domains ← arcpy_da_ListDomains p;
          foldM (fun domains_props domain =>
                   od ← props_of GDB_DOMAIN_PROPS domain;
                   mret (domains_props ++ [od]))
                [] domains)
  else
    gdb_domains ← _ogr_get_domains;
    lift (foldM (fun domains_props '(domain_type, domains) =>
                   foldM (fun domains_props domain =>
                            od ← ogr_domain_props domain_type domain;
                            mret (domains_props ++ [od]))
                         domains_props domains)
                [] (map_to_list gdb_domains)).

(* --------------------------------------------------------------------- *)
(** *** get_tables                                                        *)
(* --------------------------------------------------------------------- *)

(** [ds.GetLayerByIndex(i).GetName() for i in range(0, ds.GetLayerCount())]
    with or without the [not] on the geometry-column test. *)
Definition layer_names (spatial : bool) (ds : DataSource) : list string :=
  GetName <$>
    filter (fun l => bool_decide (GetGeometryColumn l ≠ "") = spatial) (layers ds).

(** The body of the [try] of the primary path, up to [tables.append(od)],
    run with [arcpy.env.workspace = ws]. *)
Definition arcpy_table_entry (ws : option string) (tbl : string)
  : result OrderedDict :=
  d ← arcpy_Describe ws tbl;
  catalogPath ← py_getattr d "catalogPath";
  tbl_instance ← Table catalogPath;
  with_row_count GDB_TABLE_PROPS tbl_instance.

Definition arcpy_table_od (tbl : string) : M OrderedDict :=
  ws ← get_workspace;
  lift (arcpy_table_entry ws tbl).

(** The body of the [try] of the fallback path, with [self.path = p]. *)
Definition ogr_table_entry (p : string) (table_name : string)
  : result OrderedDict :=
  tbl_instance ← TableOgr p table_name;
  with_row_count GDB_TABLE_PROPS tbl_instance.

Definition ogr_table_od (table_name : string) : M OrderedDict :=
  p ← self_attr "path";
  lift (ogr_table_entry p table_name).

Definition get_tables : M (list OrderedDict) :=
  if arcpy_found then
    p ← self_attr "path";
    set_workspace p;;
    ws ← get_workspace;
    tbls ← lift (arcpy_ListTables ws);
    foldM (fun tables tbl =>
             try_except
               (od ← arcpy_table_od tbl; mret (tables ++ [od]))
               (fun e => print (CouldNotReadTable tbl e);; mret tables))
          [] tbls
  else
    p ← self_attr "path";
    ds ← lift (ogr_open p);
    foldM (fun tables table_name =>
             try_except
               (od ← ogr_table_od table_name; mret (tables ++ [od]))
               (fun e => print (Printed e);; mret tables))
          [] (layer_names false ds).

(* --------------------------------------------------------------------- *)
(** *** get_feature_classes                                               *)
(* --------------------------------------------------------------------- *)

(** One iteration of either loop of the primary path, run with
    [arcpy.env.workspace = ws]; [fd] is the dataset being walked, [''] for
    the geodatabase root.  There is no [try] around it. *)
Definition arcpy_fc_entry (ws : option string) (fd : string) (fc : string)
  : result OrderedDict :=
  d ← arcpy_Describe ws fc;
  catalogPath ← py_getattr d "catalogPath";
  fc_instance ← FeatureClass catalogPath;
  od ← with_row_count GDB_FC_PROPS fc_instance;
  mret (OD.set "Feature dataset" (VStr fd) od).

Definition arcpy_fc_od (fd : string) (fc : string) : M OrderedDict :=
  ws ← get_workspace;
  lift (arcpy_fc_entry ws fd fc).

Definition arcpy_fc_loop (fd : string) (fcs : list OrderedDict)
  : M (list OrderedDict) :=
  ws ← get_workspace;
  names ← lift (arcpy_ListFeatureClasses ws);
  foldM (fun fcs fc => od ← arcpy_fc_od fd fc; mret (fcs ++ [od])) fcs names.

(** The body of the [try] of the fallback path, with [self.path = p]. *)
Definition ogr_fc_entry (p : string) (fc_name : string) : result OrderedDict :=
  fc_instance ← FeatureClassOgr p fc_name;
  with_row_count GDB_FC_PROPS fc_instance.

Definition ogr_fc_od (fc_name : string) : M OrderedDict :=
  p ← self_attr "path";
  lift (ogr_fc_entry p fc_name).

Definition get_feature_classes : M (list OrderedDict) :=
  if arcpy_found then
    p ← self_attr "path";
    set_workspace p;;
    ws ← get_workspace;
    fds ← lift (arcpy_ListDatasets ws);
    fcs ← match fds with
          | [] => mret []
          | _ => foldM (fun fcs fd =>
                          p ← self_attr "path";
                          set_workspace (os_path_join p fd);;
                          arcpy_fc_loop fd fcs)
                       [] fds
          end;
    p ← self_attr "path";
    set_workspace p;;
    arcpy_fc_loop "" fcs
  else
    p ← self_attr "path";
    ds ← lift (ogr_open p);
    foldM (fun fcs fc_name =>
             try_except
               (od ← ogr_fc_od fc_name; mret (fcs ++ [od]))
               (fun e => print (Printed e);; mret fcs))
          [] (layer_names true ds).

(* --------------------------------------------------------------------- *)
(** *** _get_release, _get_wkspc_type, __init__                           *)
(* --------------------------------------------------------------------- *)

(** [GDB_RELEASE.get(v, '')]: only a string can be a key of the table; a
    dict is not hashable. *)
Definition release_label (v : Value) : result string :=
  match v with
  | VStr s => Ok (default "" (GDB_RELEASE !! s))
  | VDict _ => Raise TypeError
  | _ => Ok ""
  end.

(** [','.join([a, b, c])] on three [Element.text] values. *)
Definition join3 (a b c : option string) : result string :=
  match a, b, c with
  | Some a, Some b, Some c => Ok (a ++ "," ++ b ++ "," ++ c)%string
  | _, _, _ => Raise TypeError
  end.

Definition _get_release : M string :=
  if arcpy_found then
    p ← self_attr "path";
    ws ← get_workspace;
    lift (d ← arcpy_Describe ws p;
          r ← py_getattr d "release";
          release_label r)
  else
    xml ← _ogr_get_gdb_metadata;
    lift (major ← find_text xml "MajorVersion";
          minor ← find_text xml "MinorVersion";
          bugfix ← find_text xml "BugfixVersion";
          key ← join3 major minor bugfix;
          mret (default "" (GDB_RELEASE !! key))).

(** [v.lower()] on an attribute value. *)
Definition str_lower (v : Value) : result string :=
  match v with
  | VStr s => Ok (lower s)
  | _ => Raise AttributeError
  end.

Definition _get_wkspc_type : M string :=
  if arcpy_found then
    p ← self_attr "path";
    ws ← get_workspace;
    lift (values ← foldM (fun values '(key, value) =>
                            d ← arcpy_Describe ws p;
                            progID ← py_getattr d "workspaceFactoryProgID";
                            progID_lower ← str_lower progID;
                            if contains (lower key) progID_lower
                            then mret (values ++ [value])
                            else mret values)
                         [] GDB_WKSPC_TYPE;
          match values with
          | value :: _ => Ok value
          | [] => Raise IndexError
          end)
  else mret "File geodatabase".

Definition __init__ (path : string) : M unit :=
  set_self_attr "path" path;;
  release ← _get_release;
  set_self_attr "release" release;;
  wkspc_type ← _get_wkspc_type;
  set_self_attr "wkspc_type" wkspc_type.

(** [Geodatabase(path)]: a fresh object, then [__init__] on it. *)
Definition new_Geodatabase (path : string) : M unit := fun s =>
  __init__ path {| self_dict := ∅;
                   env_workspace := env_workspace s;
                   stdout := stdout s |}.

End Geodatabase.

(* ===================================================================== *)
(** ** A small geodatabase seen through both backends                     *)
(* ===================================================================== *)

(** Concrete instances of the two interfaces, used to evaluate the methods.
    The geodatabase [demo.gdb] holds the feature dataset [Transport] with
    the feature classes [roads] and [rails], the root-level feature class
    [parcels], the table [owners], the coded-value domain [RoadType] and the
    range domain [Speed]. *)
Module Demo.

Definition mappings : Mappings := {|
  GDB_RELEASE := {[ "3,0,0" := "10.0" ]};
  GDB_WKSPC_TYPE := [("AccessWorkspaceFactory", "Personal geodatabase");
                     ("FileGDBWorkspaceFactory", "File geodatabase");
                     ("SdeWorkspaceFactory", "Enterprise geodatabase")];
  GDB_PROPS := [("path", "Path"); ("release", "Release");
                ("wkspc_type", "Workspace type")];
  GDB_DOMAIN_PROPS := [("name", "Name"); ("domainType", "Domain type");
                       ("range", "Range"); ("codedValues", "Coded values")];
  GDB_TABLE_PROPS := [("name", "Name")];
  GDB_FC_PROPS := [("name", "Name"); ("shapeType", "Shape type")];
  OGR_GDB_DOMAIN_PROPS := [("DomainName", "Name"); ("domainType", "Domain type");
                           ("range", "Range"); ("codedValues", "Coded values")];
  OGR_DOMAIN_PROPS_MAPPINGS := {[ "GPCodedValueDomain2" := "CodedValue";
                                  "GPRangeDomain2" := "Range" ]}
|}.

(** An object with the given attributes and row count. *)
Definition object (attrs : list (string * Value)) (rows : result Value) : PyObject := {|
  py_getattr := fun k =>
    match OD.get k attrs with
    | Some v => Ok v
    | None => Raise AttributeError
    end;
  get_row_count := rows
|}.

Definition leaf (t x : string) : Element := Elem t (Some x) [].

Definition coded_value (code name : string) : Element :=
  Elem "CodedValue" None [leaf "Code" code; leaf "Name" name].

Definition RoadType : Element :=
  Elem "GPCodedValueDomain2" None
    [leaf "DomainName" "RoadType";
     Elem "CodedValues" None
       [coded_value "1" "Highway"; coded_value "2" "Street"]].

Definition Speed (lo hi : string) : Element :=
  Elem "GPRangeDomain2" None
    [leaf "DomainName" "Speed"; leaf "MinValue" lo; leaf "MaxValue" hi].

Definition DEWorkspace : Element :=
  Elem "DEWorkspace" None
    [leaf "MajorVersion" "3"; leaf "MinorVersion" "0"; leaf "BugfixVersion" "0"].

Definition DETable : Element := Elem "DETableInfo" None [leaf "Name" "owners"].

(** The serialized definitions are named rather than spelled out; the
    parser maps each name back to its tree. *)
Definition catalog (speed : Element) : list (string * Element) :=
  [("<DEWorkspace>", DEWorkspace); ("<DETableInfo>", DETable);
   ("<RoadType>", RoadType); ("<Speed>", speed)].

Definition parse (speed : Element) (item : string) : result Element :=
  match OD.get item (catalog speed) with
  | Some x => Ok x
  | None => Raise ParseError
  end.

(** [float] on an unsigned decimal integer literal, which is all the demo
    needs; such a literal below 2^53 denotes its float exactly. *)
Definition digit (c : Ascii.ascii) : option Z :=
  let n := Z.of_N (Ascii.N_of_ascii c) in
  if ((48 <=? n) && (n <=? 57))%Z then Some (n - 48)%Z else None.

Fixpoint digits (acc : Z) (s : string) : option Z :=
  match s with
  | EmptyString => Some acc
  | String c rest => d ← digit c; digits (10 * acc + d)%Z rest
  end.

Definition float_of_literal (s : string) : option float :=
  match s with
  | EmptyString => None
  | _ => n ← digits 0 s; Some (PrimFloat.of_uint63 (Uint63.of_Z n))
  end.

Definition join (a b : string) : string := (a ++ "/" ++ b)%string.

Definition gdb : string := "demo.gdb".

Definition datasource (speed : Element) : DataSource := {|
  layers := [ {| GetName := "roads"; GetGeometryColumn := "SHAPE" |};
              {| GetName := "rails"; GetGeometryColumn := "SHAPE" |};
              {| GetName := "parcels"; GetGeometryColumn := "SHAPE" |};
              {| GetName := "owners"; GetGeometryColumn := "" |} ];
  ExecuteSQL_GDB_Items :=
    Ok [Some "<DEWorkspace>"; None; Some "<DETableInfo>";
        Some "<RoadType>"; Some ""; Some "<Speed>"]
|}.

Definition unavailable {A} : result A := Raise (BackendError "not installed").

(** The descriptor of a dataset item; [broken] names the feature classes
    that cannot be read. *)
Definition describe (broken : list string) (name : string) : result PyObject :=
  if bool_decide (name ∈ broken) then Raise (BackendError "cannot read")
  else Ok (object [("name", VStr name); ("shapeType", VStr "Polyline")]
                  (Ok (VInt 7))).

Definition value_name (v : Value) : string :=
  match v with VStr s => s | _ => "" end.

(** [demo.gdb] through [arcpy]. *)
Definition arcpy (broken : list string) : Backend := {|
  arcpy_found := true;
  arcpy_Describe := fun ws name =>
    Ok (object [("catalogPath", VStr name); ("release", VStr "3,0,0");
                ("workspaceFactoryProgID",
                 VStr "esriDataSourcesGDB.FileGDBWorkspaceFactory.1")]
               (Raise AttributeError));
  arcpy_da_ListDomains := fun p =>
    Ok [object [("name", VStr "RoadType"); ("domainType", VStr "CodedValue");
                ("codedValues", VDict {[ Some "1" := Some "Highway";
                                         Some "2" := Some "Street" ]})]
               (Raise AttributeError)];
  arcpy_ListTables := fun ws => Ok ["owners"];
  arcpy_ListDatasets := fun ws => Ok ["Transport"];
  arcpy_ListFeatureClasses := fun ws =>
    if decide (ws = Some gdb) then Ok ["parcels"]
    else if decide (ws = Some (join gdb "Transport")) then Ok ["roads"; "rails"]
    else Ok [];
  Table := fun p => describe broken (value_name p);
  FeatureClass := fun p => describe broken (value_name p);
  ogr_Open := fun _ => None;
  TableOgr := fun _ _ => unavailable;
  FeatureClassOgr := fun _ _ => unavailable;
  ET_fromstring := fun _ => unavailable;
  float_of_str := float_of_literal;
  os_path_join := join
|}.

(** [demo.gdb] through [ogr]; [speed] is the definition of the range domain. *)
Definition ogr (broken : list string) (speed : Element) : Backend := {|
  arcpy_found := false;
  arcpy_Describe := fun _ _ => unavailable;
  arcpy_da_ListDomains := fun _ => unavailable;
  arcpy_ListTables := fun _ => unavailable;
  arcpy_ListDatasets := fun _ => unavailable;
  arcpy_ListFeatureClasses := fun _ => unavailable;
  Table := fun _ => unavailable;
  FeatureClass := fun _ => unavailable;
  ogr_Open := fun p => if decide (p = gdb) then Some (datasource speed) else None;
  TableOgr := fun _ name => describe broken name;
  FeatureClassOgr := fun _ name => describe broken name;
  ET_fromstring := parse speed;
  float_of_str := float_of_literal;
  os_path_join := join
|}.

(** The interpreter state in which [self] is a constructed accessor. *)
Definition state : pystate := {|
  self_dict := {[ "path" := gdb; "release" := "10.0";
                  "wkspc_type" := "File geodatabase" ]};
  env_workspace := None;
  stdout := []
|}.

(** The fallback backend on the geodatabase as described, and what its
    domain scan files. *)
Definition fallback : Backend := ogr [] (Speed "1" "5").

Definition scanned : gmap string (list Element) :=
  match fst (_ogr_get_domains (B:=fallback) state) with
  | Ok g => g
  | Raise _ => ∅
  end.

(** The primary backend on the geodatabase as described, what it
    describes the workspace as and the domains it lists. *)
Definition primary : Backend := arcpy [].


Definition listed_domains : list PyObject :=
  match @arcpy_da_ListDomains primary gdb with
  | Ok domains => domains
  | Raise _ => []
  end.

(** An accessor on a path that is not there. *)
Definition nowhere : pystate := {|
  self_dict := {[ "path" := "nowhere.gdb" ]};
  env_workspace := None;
  stdout := []
|}.

(** An object on which only [path] has been set. *)
Definition half_built : pystate := {|
  self_dict := {[ "path" := gdb ]};
  env_workspace := None;
  stdout := []
|}.

(** The fallback backend on a geodatabase whose catalog has the given
    rows and no layers. *)
Definition catalog_only (rows : list (option string)) : Backend := {|
  arcpy_found := false;
  arcpy_Describe := fun _ _ => unavailable;
  arcpy_da_ListDomains := fun _ => unavailable;
  arcpy_ListTables := fun _ => unavailable;
  arcpy_ListDatasets := fun _ => unavailable;
  arcpy_ListFeatureClasses := fun _ => unavailable;
  Table := fun _ => unavailable;
  FeatureClass := fun _ => unavailable;
  ogr_Open := fun p =>
    if decide (p = gdb)
    then Some {| layers := []; ExecuteSQL_GDB_Items := Ok rows |}
    else None;
  TableOgr := fun _ _ => unavailable;
  FeatureClassOgr := fun _ _ => unavailable;
  ET_fromstring := parse (Speed "1" "5");
  float_of_str := float_of_literal;
  os_path_join := join
|}.

(** A coded-value domain whose second [CodedValue] has a [Code] and no
    [Name]. *)
Definition Surface : Element :=
  Elem "GPCodedValueDomain2" None
    [leaf "DomainName" "Surface";
     Elem "CodedValues" None
       [coded_value "1" "Paved"; Elem "CodedValue" None [leaf "Code" "2"]]].

(** The fallback backend on a geodatabase without layers whose catalog
    holds the given definitions, one row each, under the given names. *)
Definition with_definitions (cat : list (string * Element)) : Backend := {|
  arcpy_found := false;
  arcpy_Describe := fun _ _ => unavailable;
  arcpy_da_ListDomains := fun _ => unavailable;
  arcpy_ListTables := fun _ => unavailable;
  arcpy_ListDatasets := fun _ => unavailable;
  arcpy_ListFeatureClasses := fun _ => unavailable;
  Table := fun _ => unavailable;
  FeatureClass := fun _ => unavailable;
  ogr_Open := fun p =>
    if decide (p = gdb)
    then Some {| layers := []; ExecuteSQL_GDB_Items := Ok (Some <$> cat.*1) |}
    else None;
  TableOgr := fun _ _ => unavailable;
  FeatureClassOgr := fun _ _ => unavailable;
  ET_fromstring := fun item =>
    match OD.get item cat with
    | Some x => Ok x
    | None => Raise ParseError
    end;
  float_of_str := float_of_literal;
  os_path_join := join
|}.



End Demo.

(* ===================================================================== *)
(** ** Vocabulary of the specification                                    *)
(* ===================================================================== *)

(** A computation leaves the attributes of [self] as they were. *)
Definition preserves_self {A} (c : M A) : Prop :=
  ∀ s, self_dict (snd (c s)) = self_dict s.

(** A computation leaves [arcpy.env.workspace] as it was. *)
Definition preserves_env {A} (c : M A) : Prop :=
  ∀ s, env_workspace (snd (c s)) = env_workspace s.

(** Two interpreter states that differ at most in what has been printed. *)
Definition same_inputs (s1 s2 : pystate) : Prop :=
  self_dict s1 = self_dict s2 ∧ env_workspace s1 = env_workspace s2.

(** A computation whose outcome, and whose effect on [self] and on the
    workspace, are functions of [self] and the workspace alone. *)
Definition deterministic {A} (c : M A) : Prop :=
  ∀ s1 s2, same_inputs s1 s2 →
    fst (c s1) = fst (c s2) ∧ same_inputs (snd (c s1)) (snd (c s2)).

(** A computation whose outcome and whose effect on the part of the state
    that [R] relates are functions of that part alone. *)
Definition respects (R : pystate → pystate → Prop) {A} (c : M A) : Prop :=
  ∀ s1 s2, R s1 s2 →
    fst (c s1) = fst (c s2) ∧ R (snd (c s1)) (snd (c s2)).

(** Two interpreter states in which [self] has the same attributes. *)
Definition same_self (s1 s2 : pystate) : Prop := self_dict s1 = self_dict s2.

(** Every value the computation can return satisfies [Q]. *)
Definition returns {A} (c : M A) (Q : A → Prop) : Prop :=
  ∀ s a, fst (c s) = Ok a → Q a.

(** The keys of every table mapping, of every feature-class mapping of the
    fallback path, and of every feature-class mapping of the primary path. *)
Definition table_keys {T : Mappings} : list string :=
  OD.add_key "Row count" (OD.add_keys [] GDB_TABLE_PROPS.*2).

Definition fc_keys {T : Mappings} : list string :=
  OD.add_key "Row count" (OD.add_keys [] GDB_FC_PROPS.*2).

Definition arcpy_fc_keys {T : Mappings} : list string :=
  OD.add_key "Feature dataset" fc_keys.

(** [get_pretty_props] as a function of the attributes of [self]. *)
Definition pretty_props {T : Mappings} (d : gmap string string) : result OrderedDict :=
  fill_props (fun k => match d !! k with
                       | Some v => Ok (VStr v)
                       | None => Raise (KeyError k)
                       end) GDB_PROPS.

(** The items a loop with a [try] around its body appends, and the notices
    it prints, when [g] is the outcome of the body for each item. *)
Definition appended {X A} (g : X → result A) (xs : list X) : list A :=
  omap (fun x => match g x with Ok a => Some a | Raise _ => None end) xs.

Definition reported {X A} (n : X → exn → notice) (g : X → result A) (xs : list X)
  : list notice :=
  omap (fun x => match g x with Ok _ => None | Raise e => Some (n x e) end) xs.

(** The state [s] after [arcpy.env.workspace = w] and after the notices
    [ns] have been printed. *)
Definition after (s : pystate) (w : option string) (ns : list notice) : pystate :=
  {| self_dict := self_dict s; env_workspace := w; stdout := stdout s ++ ns |}.

(** The feature classes of one workspace on the primary path. *)
Definition arcpy_fc_list {T : Mappings} {B : Backend} (ws : option string) (fd : string)
  : result (list OrderedDict) :=
  names ← arcpy_ListFeatureClasses ws; mapM (arcpy_fc_entry ws fd) names.

(** What the primary path of [get_feature_classes] returns for the
    geodatabase at [p]: the feature classes of each feature dataset, dataset
    by dataset, then those of the root. *)
Definition arcpy_feature_classes {T : Mappings} {B : Backend} (p : string)
  : result (list OrderedDict) :=
  fds ← arcpy_ListDatasets (Some p);
  in_datasets ← mapM (fun fd => arcpy_fc_list (Some (os_path_join p fd)) fd) fds;
  at_root ← arcpy_fc_list (Some p) "";
  mret (concat in_datasets ++ at_root).

(** The two [Element.text] values a [CodedValue] contributes. *)
Definition code_of (cv : Element) : option string := find cv "Code" ≫= text.
Definition name_of (cv : Element) : option string := find cv "Name" ≫= text.

(** The root tags the domain scan keeps. *)
Definition domain_tags : list string := ["GPCodedValueDomain2"; "GPRangeDomain2"].

(** The catalog rows the scans parse: those with a non-empty definition. *)
Definition defined_rows (rows : list (option string)) : list (option string) :=
  filter (fun item => truthy item = true) rows.

(** The domains the fallback path walks, each with the root tag it was
    filed under, in the order [gdb_domains.items()] yields them. *)
Definition filed_domains (g : gmap string (list Element)) : list (string * Element) :=
  map_to_list g ≫= fun '(domain_type, domains) => (domain_type,.) <$> domains.

(** The sub-element that the property with key [k] is read from is absent
    from the definition [domain]. *)
Definition missing (domain : Element) (k : string) : Prop :=
  if decide (k = "domainType") then False
  else if decide (k = "range")
       then find domain "MinValue" = None ∨ find domain "MaxValue" = None
  else if decide (k = "codedValues") then find domain "CodedValues" = None
  else find domain k = None.

(** The definition [domain] has no [CodedValues] element, or one of the
    [CodedValue] children of that element has no [Code] or no [Name]. *)
Definition incomplete_codes (domain : Element) : Prop :=
  match find domain "CodedValues" with
  | None => True
  | Some c => Exists (fun cv => find cv "Code" = None ∨ find cv "Name" = None)
                     (findall c "CodedValue")
  end.

(** The text of each bound that is present is one [float] accepts. *)
Definition numeric_bounds {B : Backend} (domain : Element) : Prop :=
  ∀ k c, k ∈ ["MinValue"; "MaxValue"] → find domain k = Some c →
         is_ok (float_of_text (text c)) = true.

(* ===================================================================== *)
(** ** Ordered mappings and the loops that fill them                      *)
(* ===================================================================== *)

Section OrderedDictFacts.
Context {V : Type}.
Implicit Types (od : OD.t V) (k : string) (v : V).

Lemma OD_keys_set k v od : OD.keys (OD.set k v od) = OD.add_key k (OD.keys od).
Proof.
  unfold OD.keys. induction od as [|[k' v'] od IH]; simpl; [done|].
  case_decide; simpl; [by subst | by f_equal].
Qed.

Lemma OD_get_set_eq k v od : OD.get k (OD.set k v od) = Some v.
Proof.
  induction od as [|[k' v'] od IH]; simpl.
  - by rewrite decide_True.
  - case_decide; simpl; [by rewrite decide_True | by rewrite decide_False].
Qed.

Lemma OD_get_set_ne k k' v od : k ≠ k' → OD.get k' (OD.set k v od) = OD.get k' od.
Proof.
  intros Hne. induction od as [|[k0 v0] od IH]; simpl.
  - by rewrite decide_False.
  - destruct (decide (k0 = k)) as [->|]; simpl.
    + by rewrite !decide_False.
    + case_decide; [done | apply IH].
Qed.

Lemma OD_get_None k od : OD.get k od = None ↔ k ∉ OD.keys od.
Proof.
  unfold OD.keys. induction od as [|[k0 v0] od IH]; simpl.
  - split; [intros _; apply not_elem_of_nil | done].
  - rewrite not_elem_of_cons. case_decide; subst; [naive_solver|].
    rewrite IH. naive_solver.
Qed.

End OrderedDictFacts.

Lemma add_key_elem k k' ks : k' ∈ OD.add_key k ks ↔ k' = k ∨ k' ∈ ks.
Proof.
  induction ks as [|k0 ks IH]; simpl.
  - rewrite list_elem_of_singleton. set_solver.
  - case_decide; subst; rewrite ?elem_of_cons, ?IH; naive_solver.
Qed.

Lemma add_key_present k ks : k ∈ ks → OD.add_key k ks = ks.
Proof.
  induction ks as [|k0 ks IH]; simpl; [by intros ?%elem_of_nil|].
  intros Hin. case_decide; [done|].
  apply elem_of_cons in Hin as [->|Hin]; [done | by rewrite IH].
Qed.

Lemma add_key_fresh k ks : k ∉ ks → OD.add_key k ks = ks ++ [k].
Proof.
  induction ks as [|k0 ks IH]; simpl; [done|].
  intros [Hne Hin]%not_elem_of_cons.
  rewrite decide_False; [by rewrite IH | done].
Qed.

Section ResultFacts.
Context {A B : Type}.

Lemma result_bind_Ok (a : A) (f : A → result B) : Ok a ≫= f = f a.
Proof. reflexivity. Qed.

Lemma result_bind_Raise (e : exn) (f : A → result B) : Raise e ≫= f = Raise e.
Proof. reflexivity. Qed.

Lemma bind_Ok (r : result A) (f : A → result B) b :
  r ≫= f = Ok b ↔ ∃ a, r = Ok a ∧ f a = Ok b.
Proof. destruct r; simpl; naive_solver. Qed.

Lemma is_ok_true (r : result A) : is_ok r = true ↔ ∃ a, r = Ok a.
Proof. destruct r; simpl; naive_solver. Qed.

Lemma except_AttributeError_Ok (r : result A) d a :
  except_AttributeError r d = Ok a ↔ r = Ok a ∨ (r = Raise AttributeError ∧ a = d).
Proof. destruct r as [|[]]; simpl; naive_solver. Qed.

(** An accumulating loop in which every iteration appends one item is
    [mapM] of the item function. *)
Lemma foldM_append (f : B → result A) (xs : list B) (acc : list A) :
  foldM (fun acc x => y ← f x; mret (acc ++ [y])) acc xs
  = ys ← mapM f xs; mret (acc ++ ys).
Proof.
  revert acc. induction xs as [|x xs IH]; intros acc; simpl.
  - by rewrite app_nil_r.
  - destruct (f x) as [y|e]; simpl; [|done].
    rewrite IH. destruct (mapM f xs); simpl; [|done].
    by rewrite <- app_assoc.
Qed.

Lemma mapM_Ok (f : B → result A) (xs : list B) (ys : list A) :
  mapM f xs = Ok ys ↔ Forall2 (fun x y => f x = Ok y) xs ys.
Proof.
  revert ys. induction xs as [|x xs IH]; intros ys; simpl.
  - split; [intros [= <-]; constructor | by inversion 1].
  - split.
    + destruct (f x) as [y|] eqn:Hx; simpl; [|done].
      destruct (mapM f xs) as [ys'|] eqn:Hxs; simpl; [|done].
      intros [= <-]. constructor; [done | by apply IH].
    + inversion 1 as [|?? ys' ? Hx Hxs]; subst.
      apply IH in Hxs. by rewrite Hx, Hxs.
Qed.

End ResultFacts.

Section FillFacts.
Context (g : string → result Value).

Lemma fill_from_keys props od0 od :
  foldM (fun od '(k, v) => x ← g k; mret (OD.set v x od)) od0 props = Ok od →
  OD.keys od = OD.add_keys (OD.keys od0) props.*2.
Proof.
  revert od0. induction props as [|[k v] props IH]; intros od0; simpl.
  - by intros [= ->].
  - destruct (g k) as [x|]; simpl; [|done].
    intros Hod. apply IH in Hod. by rewrite Hod, OD_keys_set.
Qed.

(** Every mapping the loop returns has the same keys, in the same order:
    the labels of the table, in table order. *)
Lemma fill_props_keys props od :
  fill_props g props = Ok od → OD.keys od = OD.add_keys [] props.*2.
Proof. apply fill_from_keys. Qed.

Lemma fill_from_ok props od0 :
  Forall (fun kv => is_ok (g kv.1) = true) props →
  ∃ od, foldM (fun od '(k, v) => x ← g k; mret (OD.set v x od)) od0 props = Ok od.
Proof.
  intros Hall. revert od0. induction Hall as [|[k v] props Hk _ IH]; intros od0; simpl.
  - by eexists.
  - simpl in Hk. apply is_ok_true in Hk as [x ->]. simpl. apply IH.
Qed.

Lemma fill_props_ok props :
  Forall (fun kv => is_ok (g kv.1) = true) props → ∃ od, fill_props g props = Ok od.
Proof. apply fill_from_ok. Qed.

Lemma fill_from_get_stable props od0 od v :
  v ∉ props.*2 →
  foldM (fun od '(k, v) => x ← g k; mret (OD.set v x od)) od0 props = Ok od →
  OD.get v od = OD.get v od0.
Proof.
  revert od0. induction props as [|[k0 v0] props IH]; intros od0; simpl.
  - by intros _ [= ->].
  - intros [Hne Hfresh]%not_elem_of_cons.
    destruct (g k0) as [x0|]; simpl; [|done]. intros Hod.
    rewrite (IH _ Hfresh Hod). by apply OD_get_set_ne.
Qed.

(** When no label occurs twice in the table, the mapping holds under each
    label the value computed for its key. *)
Lemma fill_from_get props od0 od k v :
  NoDup props.*2 → (k, v) ∈ props →
  foldM (fun od '(k, v) => x ← g k; mret (OD.set v x od)) od0 props = Ok od →
  ∃ x, g k = Ok x ∧ OD.get v od = Some x.
Proof.
  revert od0. induction props as [|[k0 v0] props IH]; intros od0; simpl.
  - by intros _ ?%elem_of_nil.
  - intros [Hfresh Hnd]%NoDup_cons Hin.
    destruct (g k0) as [x0|] eqn:Hk0; simpl; [|done]. intros Hod.
    apply elem_of_cons in Hin as [[= -> ->]|Hin]; [|by eapply IH].
    exists x0. split; [done|].
    rewrite (fill_from_get_stable _ _ _ _ Hfresh Hod). apply OD_get_set_eq.
Qed.

Lemma fill_props_get props od k v :
  NoDup props.*2 → (k, v) ∈ props → fill_props g props = Ok od →
  ∃ x, g k = Ok x ∧ OD.get v od = Some x.
Proof. apply fill_from_get. Qed.

End FillFacts.

(* ===================================================================== *)
(** ** Frame conditions                                                   *)
(* ===================================================================== *)

Lemma preserves_self_ret {A : Type} (a : A) : preserves_self (mret a).
Proof. by intros s. Qed.

Lemma preserves_self_lift {A : Type} (r : result A) : preserves_self (lift r).
Proof. by intros s. Qed.

Lemma preserves_self_bind {A A' : Type} (c : M A) (f : A → M A') :
  preserves_self c → (∀ a, preserves_self (f a)) → preserves_self (c ≫= f).
Proof.
  intros Hc Hf s. unfold mbind, M_bind. specialize (Hc s).
  destruct (c s) as [[a|e] s']; simpl in *; [|done].
  by rewrite Hf.
Qed.

Lemma preserves_self_try {A : Type} (body : M A) (handler : exn → M A) :
  preserves_self body → (∀ e, preserves_self (handler e)) →
  preserves_self (try_except body handler).
Proof.
  intros Hb Hh s. unfold try_except. specialize (Hb s).
  destruct (body s) as [[a|e] s']; simpl in *; [done|].
  by rewrite Hh.
Qed.

Lemma preserves_self_foldM {A A' : Type} (f : A → A' → M A) (xs : list A') (acc : A) :
  (∀ acc x, preserves_self (f acc x)) → preserves_self (foldM f acc xs).
Proof.
  intros Hf. revert acc. induction xs as [|x xs IH]; intros acc; simpl.
  - apply preserves_self_ret.
  - apply preserves_self_bind; [apply Hf | apply IH].
Qed.

Lemma preserves_env_ret {A : Type} (a : A) : preserves_env (mret a).
Proof. by intros s. Qed.

Lemma preserves_env_lift {A : Type} (r : result A) : preserves_env (lift r).
Proof. by intros s. Qed.

Lemma preserves_env_bind {A A' : Type} (c : M A) (f : A → M A') :
  preserves_env c → (∀ a, preserves_env (f a)) → preserves_env (c ≫= f).
Proof.
  intros Hc Hf s. unfold mbind, M_bind. specialize (Hc s).
  destruct (c s) as [[a|e] s']; simpl in *; [|done].
  by rewrite Hf.
Qed.

Lemma preserves_self_self_attr k : preserves_self (self_attr k).
Proof. by intros s. Qed.

Lemma preserves_self_dict_item k : preserves_self (self_dict_item k).
Proof. by intros s. Qed.

Lemma preserves_self_get_workspace : preserves_self get_workspace.
Proof. by intros s. Qed.

Lemma preserves_self_set_workspace w : preserves_self (set_workspace w).
Proof. by intros s. Qed.

Lemma preserves_self_print n : preserves_self (print n).
Proof. by intros s. Qed.

Lemma preserves_env_self_attr k : preserves_env (self_attr k).
Proof. by intros s. Qed.

Lemma preserves_env_set_self_attr k v : preserves_env (set_self_attr k v).
Proof. by intros s. Qed.

Lemma preserves_env_get_workspace : preserves_env get_workspace.
Proof. by intros s. Qed.

Create HintDb frame discriminated.

#[local] Hint Resolve preserves_self_ret preserves_self_lift
  preserves_self_self_attr preserves_self_dict_item preserves_self_get_workspace
  preserves_self_set_workspace preserves_self_print
  preserves_env_ret preserves_env_lift preserves_env_self_attr
  preserves_env_set_self_attr preserves_env_get_workspace : frame.

(** Walks a method body: one rule per construct, binders introduced as met. *)
Ltac frame :=
  repeat first
    [ progress auto with frame
    | apply preserves_self_bind | apply preserves_env_bind
    | apply preserves_self_foldM | apply preserves_self_try
    | match goal with
      | |- ∀ _ : _ * _, _ => intros [? ?]
      | |- ∀ _, _ => intro
      | |- context [match ?x with _ => _ end] => destruct x
      end ].

Section MethodFrames.
Context {T : Mappings} {B : Backend}.

Lemma get_pretty_props_preserves_self : preserves_self get_pretty_props.
Proof. unfold get_pretty_props. frame. Qed.

Lemma _ogr_get_domains_preserves_self : preserves_self _ogr_get_domains.
Proof. unfold _ogr_get_domains. frame. Qed.

Lemma get_domains_preserves_self : preserves_self get_domains.
Proof.
  unfold get_domains. destruct arcpy_found; frame;
    auto using _ogr_get_domains_preserves_self.
Qed.

Lemma get_tables_preserves_self : preserves_self get_tables.
Proof.
  unfold get_tables, arcpy_table_od, ogr_table_od. destruct arcpy_found; frame.
Qed.

Lemma get_feature_classes_preserves_self : preserves_self get_feature_classes.
Proof.
  unfold get_feature_classes, arcpy_fc_loop, arcpy_fc_od, ogr_fc_od.
  destruct arcpy_found; frame.
Qed.




End MethodFrames.

(* ===================================================================== *)
(** ** Determinism of a computation in [self] and the workspace           *)
(* ===================================================================== *)

(** The two equations the proofs about [M] unfold with. *)
Lemma bind_M {A A'} (c : M A) (f : A → M A') (s : pystate) :
  (c ≫= f) s = match c s with
               | (Ok a, s') => f a s'
               | (Raise e, s') => (Raise e, s')
               end.
Proof. reflexivity. Qed.

Lemma foldM_cons `{MBind m, MRet m} {A X} (f : A → X → m A) acc x xs :
  foldM f acc (x :: xs) = f acc x ≫= fun acc' => foldM f acc' xs.
Proof. reflexivity. Qed.

Lemma deterministic_ret {A} (a : A) : deterministic (mret a).
Proof. by intros s1 s2 Hs. Qed.

Lemma deterministic_lift {A} (r : result A) : deterministic (lift r).
Proof. by intros s1 s2 Hs. Qed.

Lemma deterministic_self_attr k : deterministic (self_attr k).
Proof. intros s1 s2 [Hd He]. unfold self_attr. simpl. by rewrite Hd. Qed.

Lemma deterministic_get_workspace : deterministic get_workspace.
Proof. intros s1 s2 [Hd He]. unfold get_workspace. simpl. by rewrite He. Qed.

Lemma deterministic_set_self_attr k v : deterministic (set_self_attr k v).
Proof.
  intros s1 s2 [Hd He]. unfold set_self_attr, same_inputs. simpl.
  by rewrite Hd, He.
Qed.

Lemma deterministic_bind {A A'} (c : M A) (f : A → M A') :
  deterministic c → (∀ a, deterministic (f a)) → deterministic (c ≫= f).
Proof.
  intros Hc Hf s1 s2 Hs. unfold mbind, M_bind.
  destruct (Hc s1 s2 Hs) as [Hr Hs'].
  destruct (c s1) as [[a1|e1] s1'], (c s2) as [[a2|e2] s2']; simpl in *;
    try discriminate Hr.
  - injection Hr as ->. by apply Hf.
  - by injection Hr as ->.
Qed.

#[local] Hint Resolve deterministic_ret deterministic_lift deterministic_self_attr
  deterministic_get_workspace deterministic_set_self_attr : frame.

Ltac deterministic :=
  repeat first
    [ progress auto with frame
    | apply deterministic_bind
    | intro ].

Section Construction.
Context {T : Mappings} {B : Backend}.




(** C10.  Without [arcpy], [_get_wkspc_type] answers ['File geodatabase']
    in every state, whatever the path of [self] is, and a construction
    that succeeds stores that string. *)
Theorem wkspc_type_fallback_constant (path : string) (s : pystate) :
  arcpy_found = false →
  _get_wkspc_type s = (Ok "File geodatabase", s) ∧
  ∀ s', new_Geodatabase path s = (Ok tt, s') →
        self_dict s' !! "wkspc_type" = Some "File geodatabase".
Proof.
  intros Hogr. split; [unfold _get_wkspc_type; by rewrite Hogr|].
  intros s'. unfold new_Geodatabase, __init__, _get_wkspc_type. rewrite Hogr.
  unfold mbind, M_bind, mret, M_ret, set_self_attr. simpl.
  destruct (_get_release _) as [[r|e] s1]; [|done].
  intros [= <-]. simpl. apply lookup_insert_eq.
Qed.

End Construction.

Section Queries.
Context {T : Mappings} {B : Backend}.

Lemma get_pretty_props_from od0 props s :
  foldM (fun od '(k, v) => x ← self_dict_item k; mret (OD.set v (VStr x) od))
        od0 props s
  = (foldM (fun od '(k, v) =>
              x ← match self_dict s !! k with
                  | Some v => Ok (VStr v)
                  | None => Raise (KeyError k)
                  end;
              mret (OD.set v x od)) od0 props, s).
Proof.
  revert od0. induction props as [|[k v] props IH]; intros od0; [done|].
  rewrite !foldM_cons, !bind_M. unfold self_dict_item.
  destruct (self_dict s !! k); simpl; [apply IH | done].
Qed.

(** C9.  None of the four query methods changes an attribute of [self]
    ([path], [release] and [wkspc_type] are entries of [self_dict]), and
    [get_pretty_props] changes nothing at all: its result is the label
    table applied to the attributes it reads. *)
Theorem queries_leave_self_unchanged (s : pystate) :
  self_dict (snd (get_pretty_props s)) = self_dict s ∧
  self_dict (snd (get_domains s)) = self_dict s ∧
  self_dict (snd (get_tables s)) = self_dict s ∧
  self_dict (snd (get_feature_classes s)) = self_dict s ∧
  get_pretty_props s = (pretty_props (self_dict s), s).
Proof.
  repeat split.
  - apply get_pretty_props_preserves_self.
  - apply get_domains_preserves_self.
  - apply get_tables_preserves_self.
  - apply get_feature_classes_preserves_self.
  - apply get_pretty_props_from.
Qed.

End Queries.

(* ===================================================================== *)
(** ** Loops with a [try] around the body                                 *)
(* ===================================================================== *)

Lemma after_nothing s : after s (env_workspace s) [] = s.
Proof. destruct s. unfold after. simpl. by rewrite app_nil_r. Qed.

(** A loop whose body is wrapped in [try ... except Exception] returns
    normally whatever the items do: the items whose body succeeds are
    appended in order, one notice is printed for each of the others, and
    nothing else changes.  [g x] is the outcome of the body for [x] in the
    states the loop goes through, which differ only in what was printed. *)
Lemma try_except_M {A} (body : M A) (handler : exn → M A) (s : pystate) :
  try_except body handler s = match body s with
                              | (Raise e, s') => handler e s'
                              | r => r
                              end.
Proof. reflexivity. Qed.

Lemma appended_cons {X A} (g : X → result A) x xs :
  appended g (x :: xs) = match g x with
                         | Ok a => a :: appended g xs
                         | Raise _ => appended g xs
                         end.
Proof. unfold appended. simpl. by destruct (g x). Qed.

Lemma reported_cons {X A} (n : X → exn → notice) (g : X → result A) x xs :
  reported n g (x :: xs) = match g x with
                           | Ok _ => reported n g xs
                           | Raise e => n x e :: reported n g xs
                           end.
Proof. unfold reported. simpl. by destruct (g x). Qed.

Lemma try_loop {X} (body : X → M OrderedDict) (g : X → result OrderedDict)
    (n : X → exn → notice) (d : gmap string string) (w : option string) :
  (∀ x s, self_dict s = d → env_workspace s = w → body x s = (g x, s)) →
  ∀ xs acc s, self_dict s = d → env_workspace s = w →
    foldM (fun acc x =>
             try_except (od ← body x; mret (acc ++ [od]))
                        (fun e => print (n x e);; mret acc))
          acc xs s
    = (Ok (acc ++ appended g xs), after s w (reported n g xs)).
Proof.
  intros Hbody. induction xs as [|x xs IH]; intros acc s Hd Hw.
  - simpl. unfold mret, M_ret. rewrite app_nil_r. subst w. by rewrite after_nothing.
  - rewrite foldM_cons, bind_M, try_except_M, bind_M.
    rewrite (Hbody x s Hd Hw), appended_cons, reported_cons.
    destruct (g x) as [od|e].
    + unfold mret at 1, M_ret at 1. rewrite (IH _ s Hd Hw).
      by rewrite <- app_assoc.
    + rewrite bind_M. unfold print at 1, mret at 1, M_ret at 1.
      rewrite IH by done. unfold after. simpl. by rewrite <- app_assoc.
Qed.

Lemma appended_Forall {X A} (g : X → result A) (Q : A → Prop) xs :
  (∀ x a, g x = Ok a → Q a) → Forall Q (appended g xs).
Proof.
  intros Hg. induction xs as [|x xs IH]; [constructor|].
  rewrite appended_cons. destruct (g x) as [a|] eqn:Hx; [constructor; eauto | done].
Qed.

Lemma appended_all_ok {X A} (g : X → result A) xs ys :
  Forall2 (fun x y => g x = Ok y) xs ys → appended g xs = ys.
Proof.
  induction 1 as [|x y xs ys Hx _ IH]; [done|].
  by rewrite appended_cons, Hx, IH.
Qed.

Section TryLoops.
Context {T : Mappings} {B : Backend}.

(** With [arcpy], once the tables are listed, [get_tables] returns: an
    unreadable table costs a notice, not the listing. *)
Lemma get_tables_arcpy s p tbls :
  arcpy_found = true → self_dict s !! "path" = Some p →
  arcpy_ListTables (Some p) = Ok tbls →
  get_tables s
  = (Ok (appended (arcpy_table_entry (Some p)) tbls),
     after s (Some p) (reported CouldNotReadTable (arcpy_table_entry (Some p)) tbls)).
Proof.
  intros Harc Hp Htbls. unfold get_tables. rewrite Harc.
  rewrite bind_M. unfold self_attr at 1. rewrite Hp.
  rewrite bind_M. unfold set_workspace at 1.
  rewrite bind_M. unfold get_workspace at 1. simpl env_workspace.
  rewrite bind_M. unfold lift at 1. rewrite Htbls.
  erewrite (try_loop arcpy_table_od (arcpy_table_entry (Some p))
              CouldNotReadTable (self_dict s) (Some p)); [done| |done|done].
  intros x s' _ Hw. unfold arcpy_table_od. rewrite bind_M.
  unfold get_workspace, lift. by rewrite Hw.
Qed.

(** Without [arcpy], once the data source is open. *)
Lemma get_tables_ogr s p ds :
  arcpy_found = false → self_dict s !! "path" = Some p → ogr_Open p = Some ds →
  get_tables s
  = (Ok (appended (ogr_table_entry p) (layer_names false ds)),
     after s (env_workspace s)
       (reported (fun _ => Printed) (ogr_table_entry p) (layer_names false ds))).
Proof.
  intros Harc Hp Hds. unfold get_tables. rewrite Harc.
  rewrite bind_M. unfold self_attr at 1. rewrite Hp.
  rewrite bind_M. unfold lift at 1, ogr_open. rewrite Hds.
  erewrite (try_loop ogr_table_od (ogr_table_entry p)
              (fun _ => Printed) (self_dict s) (env_workspace s)); [done| |done|done].
  intros x s' Hd _. unfold ogr_table_od. rewrite bind_M.
  unfold self_attr, lift. by rewrite Hd, Hp.
Qed.

Lemma get_feature_classes_ogr s p ds :
  arcpy_found = false → self_dict s !! "path" = Some p → ogr_Open p = Some ds →
  get_feature_classes s
  = (Ok (appended (ogr_fc_entry p) (layer_names true ds)),
     after s (env_workspace s)
       (reported (fun _ => Printed) (ogr_fc_entry p) (layer_names true ds))).
Proof.
  intros Harc Hp Hds. unfold get_feature_classes. rewrite Harc.
  rewrite bind_M. unfold self_attr at 1. rewrite Hp.
  rewrite bind_M. unfold lift at 1, ogr_open. rewrite Hds.
  erewrite (try_loop ogr_fc_od (ogr_fc_entry p)
              (fun _ => Printed) (self_dict s) (env_workspace s)); [done| |done|done].
  intros x s' Hd _. unfold ogr_fc_od. rewrite bind_M.
  unfold self_attr, lift. by rewrite Hd, Hp.
Qed.

End TryLoops.

(* ===================================================================== *)
(** ** The primary path of get_feature_classes                            *)
(* ===================================================================== *)

Lemma foldM_pure {A X} (f : A → X → M A) (g : A → X → result A) (s : pystate) :
  (∀ a x, f a x s = (g a x, s)) → ∀ xs a, foldM f a xs s = (foldM g a xs, s).
Proof.
  intros Hf. induction xs as [|x xs IH]; intros a; [done|].
  rewrite !foldM_cons, bind_M, Hf. destruct (g a x); simpl; [apply IH | done].
Qed.

Section PrimaryFeatureClasses.
Context {T : Mappings} {B : Backend}.

Lemma arcpy_fc_loop_M fd fcs s :
  arcpy_fc_loop fd fcs s
  = (ods ← arcpy_fc_list (env_workspace s) fd; mret (fcs ++ ods), s).
Proof.
  unfold arcpy_fc_loop, arcpy_fc_list. rewrite bind_M. unfold get_workspace at 1.
  rewrite bind_M. unfold lift at 1.
  destruct (arcpy_ListFeatureClasses (env_workspace s)) as [names|e]; [|done].
  erewrite foldM_pure.
  - by rewrite foldM_append.
  - intros a x. rewrite bind_M. unfold arcpy_fc_od. rewrite bind_M.
    unfold get_workspace, lift. by destruct (arcpy_fc_entry _ fd x).
Qed.

Lemma dataset_loop p fds acc s :
  self_dict s !! "path" = Some p →
  ∃ s', foldM (fun fcs fd =>
                 p ← self_attr "path";
                 set_workspace (os_path_join p fd);;
                 arcpy_fc_loop fd fcs) acc fds s
        = (in_datasets ← mapM (fun fd => arcpy_fc_list (Some (os_path_join p fd)) fd) fds;
           mret (acc ++ concat in_datasets), s')
        ∧ self_dict s' = self_dict s.
Proof.
  intros Hp. revert acc s Hp. induction fds as [|fd fds IH]; intros acc s Hp.
  - exists s. simpl. by rewrite app_nil_r.
  - rewrite foldM_cons, bind_M, bind_M. unfold self_attr at 1. rewrite Hp.
    rewrite bind_M. unfold set_workspace at 1. rewrite arcpy_fc_loop_M.
    simpl env_workspace. simpl mapM.
    destruct (arcpy_fc_list (Some (os_path_join p fd)) fd) as [ods|e]; simpl.
    + edestruct (IH (acc ++ ods)) as [s' [-> Hs']]; [by simpl|].
      exists s'. split; [|done].
      destruct (mapM _ fds); simpl; [by rewrite <- app_assoc | done].
    + by eexists.
Qed.

Lemma get_feature_classes_arcpy s p :
  arcpy_found = true → self_dict s !! "path" = Some p →
  fst (get_feature_classes s) = arcpy_feature_classes p.
Proof.
  intros Harc Hp. unfold get_feature_classes, arcpy_feature_classes. rewrite Harc.
  rewrite bind_M. unfold self_attr at 1. rewrite Hp.
  rewrite bind_M. unfold set_workspace at 1.
  rewrite bind_M. unfold get_workspace at 1. simpl env_workspace.
  rewrite bind_M. unfold lift at 1.
  destruct (arcpy_ListDatasets (Some p)) as [fds|e]; [|done].
  rewrite bind_M.
  assert (∀ s0, (match fds with
                 | [] => mret []
                 | _ => foldM (fun fcs fd =>
                                 p ← self_attr "path";
                                 set_workspace (os_path_join p fd);;
                                 arcpy_fc_loop fd fcs) [] fds
                 end) s0
                = foldM (fun fcs fd =>
                           p ← self_attr "path";
                           set_workspace (os_path_join p fd);;
                           arcpy_fc_loop fd fcs) [] fds s0) as ->
    by (by destruct fds).
  edestruct (dataset_loop p fds []) as [s' [-> Hs']]; [by simpl|].
  simpl in Hs'. simpl.
  destruct (mapM _ fds) as [in_datasets|e]; simpl; [|done].
  rewrite bind_M. unfold self_attr at 1. rewrite Hs', Hp.
  rewrite bind_M. unfold set_workspace at 1. rewrite arcpy_fc_loop_M. simpl.
  by destruct (arcpy_fc_list (Some p) "").
Qed.

End PrimaryFeatureClasses.

(* ===================================================================== *)
(** ** What the returned mappings look like                               *)
(* ===================================================================== *)

Lemma returns_ret {A} (a : A) (Q : A → Prop) : Q a → returns (mret a) Q.
Proof. intros Ha s a'. by intros [= <-]. Qed.

Lemma returns_lift {A} (r : result A) (Q : A → Prop) :
  (∀ a, r = Ok a → Q a) → returns (lift r) Q.
Proof. intros Hr s a. apply Hr. Qed.

Lemma returns_bind {A A'} (c : M A) (f : A → M A') (P : A → Prop) (Q : A' → Prop) :
  returns c P → (∀ a, P a → returns (f a) Q) → returns (c ≫= f) Q.
Proof.
  intros Hc Hf s a'. rewrite bind_M. specialize (Hc s).
  destruct (c s) as [[a|e] s1]; simpl in *; [|done].
  apply Hf. by apply Hc.
Qed.

Lemma returns_any {A} (c : M A) : returns c (fun _ => True).
Proof. by intros s a. Qed.

Lemma returns_try {A} (body : M A) (handler : exn → M A) (Q : A → Prop) :
  returns body Q → (∀ e, returns (handler e) Q) → returns (try_except body handler) Q.
Proof.
  intros Hb Hh s a. rewrite try_except_M. specialize (Hb s).
  destruct (body s) as [[a'|e] s1]; simpl in *; [apply Hb | apply Hh].
Qed.

Lemma returns_foldM {A X} (f : A → X → M A) (I : A → Prop) xs acc :
  I acc → (∀ acc x, I acc → returns (f acc x) I) → returns (foldM f acc xs) I.
Proof.
  intros Hacc Hf. revert acc Hacc. induction xs as [|x xs IH]; intros acc Hacc.
  - by apply returns_ret.
  - rewrite foldM_cons. eapply returns_bind; [by apply Hf | apply IH].
Qed.

Lemma foldM_result_inv {A X} (f : A → X → result A) (I : A → Prop) xs acc a :
  I acc → (∀ acc x a, I acc → f acc x = Ok a → I a) →
  foldM f acc xs = Ok a → I a.
Proof.
  intros Hacc Hf. revert acc Hacc. induction xs as [|x xs IH]; intros acc Hacc; simpl.
  - by intros [= <-].
  - destruct (f acc x) as [a'|] eqn:Hx; simpl; [|done]. eauto.
Qed.

Lemma add_keys_elem k ks ls : k ∈ OD.add_keys ks ls ↔ k ∈ ks ∨ k ∈ ls.
Proof.
  unfold OD.add_keys. revert ks. induction ls as [|l ls IH]; intros ks; simpl.
  - rewrite elem_of_nil. naive_solver.
  - rewrite IH, add_key_elem, elem_of_cons. naive_solver.
Qed.

Section Keys.
Context {T : Mappings} {B : Backend}.

Lemma with_row_count_keys props inst od :
  with_row_count props inst = Ok od →
  OD.keys od = OD.add_key "Row count" (OD.add_keys [] props.*2).
Proof.
  unfold with_row_count, props_of. intros (od0 & Hod0 & (n & _ & [= <-])%bind_Ok)%bind_Ok.
  by rewrite OD_keys_set, (fill_props_keys _ _ _ Hod0).
Qed.

Lemma arcpy_table_entry_keys ws tbl od :
  arcpy_table_entry ws tbl = Ok od → OD.keys od = table_keys.
Proof.
  unfold arcpy_table_entry.
  intros (d & _ & (c & _ & (i & _ & Hod)%bind_Ok)%bind_Ok)%bind_Ok.
  by apply with_row_count_keys in Hod.
Qed.

Lemma ogr_table_entry_keys p name od :
  ogr_table_entry p name = Ok od → OD.keys od = table_keys.
Proof.
  unfold ogr_table_entry. intros (i & _ & Hod)%bind_Ok.
  by apply with_row_count_keys in Hod.
Qed.

Lemma ogr_fc_entry_keys p name od :
  ogr_fc_entry p name = Ok od → OD.keys od = fc_keys.
Proof.
  unfold ogr_fc_entry. intros (i & _ & Hod)%bind_Ok.
  by apply with_row_count_keys in Hod.
Qed.

Lemma arcpy_fc_entry_keys ws fd fc od :
  arcpy_fc_entry ws fd fc = Ok od → OD.keys od = arcpy_fc_keys.
Proof.
  unfold arcpy_fc_entry.
  intros (d & _ & (c & _ & (i & _ & (od0 & Hod0 & [= <-])%bind_Ok)%bind_Ok)%bind_Ok)%bind_Ok.
  apply with_row_count_keys in Hod0. by rewrite OD_keys_set, Hod0.
Qed.

Lemma arcpy_fc_entry_dataset ws fd fc od :
  arcpy_fc_entry ws fd fc = Ok od → OD.get "Feature dataset" od = Some (VStr fd).
Proof.
  unfold arcpy_fc_entry.
  intros (d & _ & (c & _ & (i & _ & (od0 & _ & [= <-])%bind_Ok)%bind_Ok)%bind_Ok)%bind_Ok.
  apply OD_get_set_eq.
Qed.

Lemma get_pretty_props_keys :
  returns get_pretty_props (fun od => OD.keys od = OD.add_keys [] GDB_PROPS.*2).
Proof.
  intros s od. unfold get_pretty_props. rewrite get_pretty_props_from. simpl.
  apply fill_from_keys.
Qed.

Lemma get_tables_keys :
  returns get_tables (Forall (fun od => OD.keys od = table_keys)).
Proof.
  unfold get_tables. destruct arcpy_found.
  - repeat (eapply returns_bind; [apply returns_any|intros ? _]).
    apply returns_foldM; [constructor|]. intros acc tbl Hacc.
    apply returns_try.
    + eapply returns_bind with (P := fun od => OD.keys od = table_keys).
      * unfold arcpy_table_od. eapply returns_bind; [apply returns_any|intros ws _].
        apply returns_lift, arcpy_table_entry_keys.
      * intros od Hod. apply returns_ret, Forall_app. by repeat constructor.
    + intros e. eapply returns_bind; [apply returns_any|intros ? _].
      by apply returns_ret.
  - repeat (eapply returns_bind; [apply returns_any|intros ? _]).
    apply returns_foldM; [constructor|]. intros acc tbl Hacc.
    apply returns_try.
    + eapply returns_bind with (P := fun od => OD.keys od = table_keys).
      * unfold ogr_table_od. eapply returns_bind; [apply returns_any|intros p _].
        apply returns_lift, ogr_table_entry_keys.
      * intros od Hod. apply returns_ret, Forall_app. by repeat constructor.
    + intros e. eapply returns_bind; [apply returns_any|intros ? _].
      by apply returns_ret.
Qed.

Lemma get_feature_classes_ogr_keys :
  arcpy_found = false →
  returns get_feature_classes (Forall (fun od => OD.keys od = fc_keys)).
Proof.
  intros Harc. unfold get_feature_classes. rewrite Harc.
  repeat (eapply returns_bind; [apply returns_any|intros ? _]).
  apply returns_foldM; [constructor|]. intros acc tbl Hacc.
  apply returns_try.
  - eapply returns_bind with (P := fun od => OD.keys od = fc_keys).
    + unfold ogr_fc_od. eapply returns_bind; [apply returns_any|intros p _].
      apply returns_lift, ogr_fc_entry_keys.
    + intros od Hod. apply returns_ret, Forall_app. by repeat constructor.
  - intros e. eapply returns_bind; [apply returns_any|intros ? _].
    by apply returns_ret.
Qed.

Lemma arcpy_fc_list_keys ws fd ods :
  arcpy_fc_list ws fd = Ok ods → Forall (fun od => OD.keys od = arcpy_fc_keys) ods.
Proof.
  unfold arcpy_fc_list. intros (names & _ & Hods%mapM_Ok)%bind_Ok.
  induction Hods as [|fc od names ods Hfc _ IH]; constructor; [|done].
  by eapply arcpy_fc_entry_keys.
Qed.

Lemma get_feature_classes_arcpy_keys :
  arcpy_found = true →
  returns get_feature_classes (Forall (fun od => OD.keys od = arcpy_fc_keys)).
Proof.
  intros Harc s fcs.
  destruct (self_dict s !! "path") as [p|] eqn:Hp.
  - rewrite (get_feature_classes_arcpy s p Harc Hp). unfold arcpy_feature_classes.
    intros (fds & _ & (ins & Hins%mapM_Ok & (root & Hroot & [= <-])%bind_Ok)%bind_Ok)%bind_Ok.
    apply Forall_app. split; [|by eapply arcpy_fc_list_keys].
    apply Forall_concat.
    induction Hins as [|fd ods fds ins Hfd _ IH]; constructor; [|done].
    by eapply arcpy_fc_list_keys.
  - unfold get_feature_classes. rewrite Harc, bind_M. unfold self_attr at 1.
    by rewrite Hp.
Qed.

Lemma get_domains_arcpy_keys :
  arcpy_found = true →
  returns get_domains
    (Forall (fun od => OD.keys od = OD.add_keys [] GDB_DOMAIN_PROPS.*2)).
Proof.
  intros Harc. unfold get_domains. rewrite Harc.
  eapply returns_bind; [apply returns_any|intros p _].
  apply returns_lift. intros l (domains & _ & Hl)%bind_Ok. revert Hl.
  apply foldM_result_inv; [constructor|].
  intros acc domain l' Hacc (od & Hod & [= <-])%bind_Ok.
  apply Forall_app. split; [done|]. repeat constructor.
  by apply fill_props_keys in Hod.
Qed.

Lemma get_domains_ogr_keys :
  arcpy_found = false →
  returns get_domains
    (Forall (fun od => OD.keys od = OD.add_keys [] OGR_GDB_DOMAIN_PROPS.*2)).
Proof.
  intros Harc. unfold get_domains. rewrite Harc.
  eapply returns_bind; [apply returns_any|intros g _].
  apply returns_lift. intros l.
  apply foldM_result_inv; [constructor|].
  intros acc [domain_type domains] l' Hacc.
  apply foldM_result_inv; [done|].
  intros acc' domain l'' Hacc' (od & Hod & [= <-])%bind_Ok.
  apply Forall_app. split; [done|]. repeat constructor.
  by apply fill_props_keys in Hod.
Qed.

End Keys.

(* ===================================================================== *)
(** ** The two backends side by side                                      *)
(* ===================================================================== *)

(** ['Feature dataset'] is one of the two ["custom props"] of a feature
    class, assigned after the loop over [GDB_FC_PROPS].  Where the table
    does not list that label itself, the assignment appends a key that the
    mappings of the fallback path do not have; where the table lists it,
    the assignment overwrites the entry and the keys are those of the
    fallback path. *)
Lemma fc_keys_fresh {T : Mappings} :
  "Feature dataset" ∉ GDB_FC_PROPS.*2 → "Feature dataset" ∉ fc_keys.
Proof.
  intros Hfresh. unfold fc_keys. rewrite add_key_elem, add_keys_elem.
  intros [[=]|[[]%elem_of_nil|Hin]]. by apply Hfresh.
Qed.

Lemma arcpy_fc_keys_fresh {T : Mappings} :
  "Feature dataset" ∉ GDB_FC_PROPS.*2 →
  arcpy_fc_keys = fc_keys ++ ["Feature dataset"].
Proof. intros Hfresh. by apply add_key_fresh, fc_keys_fresh. Qed.

Lemma arcpy_fc_keys_listed {T : Mappings} :
  "Feature dataset" ∈ GDB_FC_PROPS.*2 → arcpy_fc_keys = fc_keys.
Proof.
  intros Hin. apply add_key_present. unfold fc_keys.
  rewrite add_key_elem, add_keys_elem. auto.
Qed.

Lemma keys_with_one_more (ks : list string) k : ks ++ [k] ≠ ks.
Proof. intros Heq%(f_equal length). rewrite length_app in Heq. simpl in Heq. lia. Qed.

(** [demo.gdb] can be read through both backends whatever the label
    tables are: each of its three feature classes gets a mapping on either
    path. *)
Section DemoFeatureClasses.
Context {T : Mappings}.

Lemma demo_object_getattr attrs rows k d :
  is_ok (getattr (Demo.object attrs rows) k d) = true.
Proof. unfold getattr, Demo.object. simpl. by destruct (OD.get k attrs). Qed.

Lemma demo_with_row_count props attrs n :
  ∃ od, with_row_count props (Demo.object attrs (Ok n)) = Ok od.
Proof.
  unfold with_row_count, props_of.
  destruct (fill_props_ok
              (fun k => getattr (Demo.object attrs (Ok n)) k (VStr "")) props)
    as [od Hod].
  { apply Forall_forall. intros kv _. apply demo_object_getattr. }
  rewrite Hod. by eexists.
Qed.

Lemma demo_describe name :
  Demo.describe [] name
  = Ok (Demo.object [("name", VStr name); ("shapeType", VStr "Polyline")]
                    (Ok (VInt 7))).
Proof.
  unfold Demo.describe. rewrite bool_decide_eq_false_2; [done|apply not_elem_of_nil].
Qed.

Lemma demo_arcpy_fc_entry ws fd fc :
  ∃ od, arcpy_fc_entry (B:=Demo.primary) ws fd fc = Ok od.
Proof.
  unfold arcpy_fc_entry.
  change (@FeatureClass Demo.primary) with (fun p => Demo.describe [] (Demo.value_name p)).
  change (@arcpy_Describe Demo.primary ws fc)
    with (Ok (Demo.object [("catalogPath", VStr fc); ("release", VStr "3,0,0");
                           ("workspaceFactoryProgID",
                            VStr "esriDataSourcesGDB.FileGDBWorkspaceFactory.1")]
                          (Raise AttributeError))).
  rewrite result_bind_Ok.
  change (py_getattr _ "catalogPath") with (Ok (VStr fc)).
  rewrite result_bind_Ok. simpl Demo.value_name. rewrite demo_describe, result_bind_Ok.
  destruct (demo_with_row_count GDB_FC_PROPS
              [("name", VStr fc); ("shapeType", VStr "Polyline")] (VInt 7)) as [od ->].
  by eexists.
Qed.

Lemma demo_ogr_fc_entry p name :
  ∃ od, ogr_fc_entry (B:=Demo.fallback) p name = Ok od.
Proof.
  unfold ogr_fc_entry.
  change (@FeatureClassOgr Demo.fallback p name) with (Demo.describe [] name).
  rewrite demo_describe, result_bind_Ok. apply demo_with_row_count.
Qed.

Lemma demo_feature_classes :
  ∃ a1 a2 a3 o1 o2 o3,
    fst (get_feature_classes (B:=Demo.primary) Demo.state) = Ok [a1; a2; a3] ∧
    fst (get_feature_classes (B:=Demo.fallback) Demo.state) = Ok [o1; o2; o3].
Proof.
  destruct (demo_arcpy_fc_entry (Some (Demo.join Demo.gdb "Transport")) "Transport" "roads")
    as [a1 Ha1].
  destruct (demo_arcpy_fc_entry (Some (Demo.join Demo.gdb "Transport")) "Transport" "rails")
    as [a2 Ha2].
  destruct (demo_arcpy_fc_entry (Some Demo.gdb) "" "parcels") as [a3 Ha3].
  destruct (demo_ogr_fc_entry Demo.gdb "roads") as [o1 Ho1].
  destruct (demo_ogr_fc_entry Demo.gdb "rails") as [o2 Ho2].
  destruct (demo_ogr_fc_entry Demo.gdb "parcels") as [o3 Ho3].
  exists a1, a2, a3, o1, o2, o3. split.
  - rewrite (get_feature_classes_arcpy (B:=Demo.primary) Demo.state Demo.gdb eq_refl eq_refl).
    unfold arcpy_feature_classes, arcpy_fc_list.
    change (@arcpy_ListDatasets Demo.primary (Some Demo.gdb)) with (Ok ["Transport"]).
    rewrite result_bind_Ok.
    change (@os_path_join Demo.primary) with Demo.join.
    change (@arcpy_ListFeatureClasses Demo.primary (Some Demo.gdb))
      with (Ok ["parcels"] : result (list string)).
    simpl mapM at 1.
    change (@arcpy_ListFeatureClasses Demo.primary
              (Some (Demo.join Demo.gdb "Transport")))
      with (Ok ["roads"; "rails"] : result (list string)).
    rewrite !result_bind_Ok. simpl. by rewrite Ha1, Ha2, Ha3.
  - rewrite (get_feature_classes_ogr (B:=Demo.fallback) Demo.state Demo.gdb
               (Demo.datasource (Demo.Speed "1" "5")) eq_refl eq_refl eq_refl).
    change (layer_names true (Demo.datasource (Demo.Speed "1" "5")))
      with ["roads"; "rails"; "parcels"].
    unfold appended. simpl. by rewrite Ho1, Ho2, Ho3.
Qed.

End DemoFeatureClasses.

(** C1, as the code has it.  With [Ba] an [arcpy] backend and [Bo] an [ogr]
    backend, the two domain tables listing the same labels, and
    ['Feature dataset'] a custom property, not a label of [GDB_FC_PROPS]:
    [get_pretty_props] does not consult the backend, and the mappings of
    [get_domains] and of [get_tables] have the same fixed keys in the same
    order on both paths.  For [get_feature_classes] every mapping of the
    fallback path has the keys [fc_keys], ['Feature dataset'] not among
    them, and every mapping of the primary path has those keys followed by
    ['Feature dataset']: no mapping of one path has the keys of a mapping of
    the other. *)
Theorem backends_key_layout (T : Mappings) (Ba Bo : Backend) :
  @arcpy_found Ba = true → @arcpy_found Bo = false →
  GDB_DOMAIN_PROPS.*2 = OGR_GDB_DOMAIN_PROPS.*2 →
  "Feature dataset" ∉ GDB_FC_PROPS.*2 →
  returns get_pretty_props (fun od => OD.keys od = OD.add_keys [] GDB_PROPS.*2) ∧
  (returns (get_domains (B:=Ba))
     (Forall (fun od => OD.keys od = OD.add_keys [] GDB_DOMAIN_PROPS.*2)) ∧
   returns (get_domains (B:=Bo))
     (Forall (fun od => OD.keys od = OD.add_keys [] GDB_DOMAIN_PROPS.*2))) ∧
  (returns (get_tables (B:=Ba)) (Forall (fun od => OD.keys od = table_keys)) ∧
   returns (get_tables (B:=Bo)) (Forall (fun od => OD.keys od = table_keys))) ∧
  (returns (get_feature_classes (B:=Ba))
     (Forall (fun od => OD.keys od = fc_keys ++ ["Feature dataset"])) ∧
   returns (get_feature_classes (B:=Bo))
     (Forall (fun od => OD.keys od = fc_keys)) ∧
   ("Feature dataset" ∉ fc_keys) ∧
   ∀ sa so la lo oda odo,
     fst (get_feature_classes (B:=Ba) sa) = Ok la →
     fst (get_feature_classes (B:=Bo) so) = Ok lo →
     oda ∈ la → odo ∈ lo →
     OD.keys oda = OD.keys odo ++ ["Feature dataset"] ∧ OD.keys oda ≠ OD.keys odo).
Proof.
  intros Ha Ho Hlabels Hcustom.
  assert (returns (get_feature_classes (B:=Ba))
            (Forall (fun od => OD.keys od = fc_keys ++ ["Feature dataset"]))) as Hfa.
  { rewrite <- (arcpy_fc_keys_fresh Hcustom). by apply get_feature_classes_arcpy_keys. }
  assert (returns (get_feature_classes (B:=Bo))
            (Forall (fun od => OD.keys od = fc_keys))) as Hfo
    by (by apply get_feature_classes_ogr_keys).
  split; [apply get_pretty_props_keys|].
  split; [split; [by apply get_domains_arcpy_keys|]|].
  { rewrite Hlabels. by apply get_domains_ogr_keys. }
  split; [split; apply get_tables_keys|].
  split; [exact Hfa|]. split; [exact Hfo|]. split; [by apply fc_keys_fresh|].
  intros sa so la lo oda odo Hla Hlo Hoda Hodo.
  pose proof (proj1 (Forall_forall _ _) (Hfa sa la Hla) oda Hoda) as Hka.
  pose proof (proj1 (Forall_forall _ _) (Hfo so lo Hlo) odo Hodo) as Hko.
  simpl in Hka, Hko. rewrite Hka, Hko. split; [done | apply keys_with_one_more].
Qed.

Lemma backends_key_layout_witness :
  (@arcpy_found (Demo.arcpy []) = true ∧
   @arcpy_found (Demo.ogr [] (Demo.Speed "1" "5")) = false ∧
   (@GDB_DOMAIN_PROPS Demo.mappings).*2 = (@OGR_GDB_DOMAIN_PROPS Demo.mappings).*2 ∧
   "Feature dataset" ∉ (@GDB_FC_PROPS Demo.mappings).*2) ∧
  returns (get_feature_classes (T:=Demo.mappings) (B:=Demo.arcpy []))
    (Forall (fun od => OD.keys od
                       = ["Name"; "Shape type"; "Row count"; "Feature dataset"])) ∧
  returns (get_feature_classes (T:=Demo.mappings) (B:=Demo.ogr [] (Demo.Speed "1" "5")))
    (Forall (fun od => OD.keys od = ["Name"; "Shape type"; "Row count"])).
Proof.
  assert ("Feature dataset" ∉ (@GDB_FC_PROPS Demo.mappings).*2) as Hcustom
    by (simpl; set_solver).
  split; [by repeat split|].
  destruct (backends_key_layout Demo.mappings (Demo.arcpy [])
              (Demo.ogr [] (Demo.Speed "1" "5")) eq_refl eq_refl eq_refl Hcustom)
    as (_ & _ & _ & Hfa & Hfo & _).
  split; [exact Hfa | exact Hfo].
Defined.

(** C1 as stated fails on [demo.gdb]: read through [arcpy], each of its
    three feature classes has four keys; read through [ogr], three.  And so
    with any label tables in place of the ones used here, as long as
    ['Feature dataset'] is not a label of [GDB_FC_PROPS]: the geodatabase
    is read through both backends, and every mapping of the primary path
    has one key more than every mapping of the fallback path. *)
Lemma feature_class_keys_differ :
  (∃ la lo,
     fst (get_feature_classes (T:=Demo.mappings) (B:=Demo.arcpy []) Demo.state) = Ok la ∧
     fst (get_feature_classes (T:=Demo.mappings)
            (B:=Demo.ogr [] (Demo.Speed "1" "5")) Demo.state) = Ok lo ∧
     OD.keys <$> la
       = [["Name"; "Shape type"; "Row count"; "Feature dataset"];
          ["Name"; "Shape type"; "Row count"; "Feature dataset"];
          ["Name"; "Shape type"; "Row count"; "Feature dataset"]] ∧
     OD.keys <$> lo
       = [["Name"; "Shape type"; "Row count"];
          ["Name"; "Shape type"; "Row count"];
          ["Name"; "Shape type"; "Row count"]] ∧
     ¬ ∀ oda odo, oda ∈ la → odo ∈ lo → OD.keys oda = OD.keys odo) ∧
  (∀ T : Mappings,
     "Feature dataset" ∉ GDB_FC_PROPS.*2 →
     ∃ la lo,
       fst (get_feature_classes (B:=Demo.arcpy []) Demo.state) = Ok la ∧
       fst (get_feature_classes (B:=Demo.ogr [] (Demo.Speed "1" "5")) Demo.state)
         = Ok lo ∧
       length la = 3 ∧ length lo = 3 ∧
       ∀ oda odo, oda ∈ la → odo ∈ lo →
                  OD.keys oda = OD.keys odo ++ ["Feature dataset"] ∧
                  OD.keys oda ≠ OD.keys odo).
Proof.
  split.
  - eexists _, _. split; [vm_compute; reflexivity|].
    split; [vm_compute; reflexivity|].
    split; [reflexivity|]. split; [reflexivity|].
    intros Hsame.
    discriminate (Hsame _ _ (list_elem_of_here _ _) (list_elem_of_here _ _)).
  - intros T Hcustom.
    destruct (demo_feature_classes (T:=T)) as (a1 & a2 & a3 & o1 & o2 & o3 & Hla & Hlo).
    exists [a1; a2; a3], [o1; o2; o3]. split; [exact Hla|]. split; [exact Hlo|].
    split; [done|]. split; [done|].
    intros oda odo Hoda Hodo.
    pose proof (get_feature_classes_arcpy_keys (B:=Demo.primary) eq_refl _ _ Hla) as Hka.
    pose proof (get_feature_classes_ogr_keys (B:=Demo.fallback) eq_refl _ _ Hlo) as Hko.
    rewrite Forall_forall in Hka, Hko.
    rewrite (Hka oda Hoda), (Hko odo Hodo), (arcpy_fc_keys_fresh Hcustom).
    split; [done | apply keys_with_one_more].
Qed.

(** C2.  On the primary path of [get_feature_classes] one unreadable
    feature class ends the call: with [rails] unreadable, [roads] has been
    read, nothing is printed, and the exception reaches the caller.  The
    fallback path on the same geodatabase prints the notice, skips [rails]
    and goes on to [parcels], and so does [get_tables] on both paths. *)
Theorem get_feature_classes_arcpy_unguarded :
  let primary :=
    get_feature_classes (T:=Demo.mappings) (B:=Demo.arcpy ["rails"]) Demo.state in
  let fallback :=
    get_feature_classes (T:=Demo.mappings)
      (B:=Demo.ogr ["rails"] (Demo.Speed "1" "5")) Demo.state in
  fst primary = Raise (BackendError "cannot read") ∧
  stdout (snd primary) = [] ∧
  (∃ roads parcels,
     fst fallback = Ok [roads; parcels] ∧
     OD.get "Name" roads = Some (VStr "roads") ∧
     OD.get "Name" parcels = Some (VStr "parcels")) ∧
  stdout (snd fallback) = [Printed (BackendError "cannot read")].
Proof.
  split; [vm_compute; reflexivity|]. split; [vm_compute; reflexivity|].
  split; [|vm_compute; reflexivity].
  eexists _, _. split; [vm_compute; reflexivity|]. by split.
Qed.

(** The same on any geodatabase without feature datasets: when the body
    raises for the first feature class of the root, so does the call. *)
Lemma get_feature_classes_arcpy_raises {T : Mappings} {B : Backend} s p fc rest e :
  arcpy_found = true → self_dict s !! "path" = Some p →
  arcpy_ListDatasets (Some p) = Ok [] →
  arcpy_ListFeatureClasses (Some p) = Ok (fc :: rest) →
  arcpy_fc_entry (Some p) "" fc = Raise e →
  fst (get_feature_classes s) = Raise e.
Proof.
  intros Harc Hp Hfds Hroot Hfc. rewrite (get_feature_classes_arcpy s p Harc Hp).
  unfold arcpy_feature_classes, arcpy_fc_list. rewrite Hfds, Hroot. simpl.
  by rewrite Hfc.
Qed.

(* ===================================================================== *)
(** ** Feature datasets                                                   *)
(* ===================================================================== *)

(** C3.  On the primary path [get_feature_classes] returns exactly when
    every listing and every feature class can be read, and what it returns
    is: for each feature dataset in turn, the mappings of its feature
    classes, each with ['Feature dataset'] set to the name of that dataset;
    then the mappings of the root-level feature classes, each with
    ['Feature dataset'] set to [''].  On the fallback path no mapping has
    the key, the label table having no such label. *)
Theorem feature_dataset_entries (T : Mappings) (Ba Bo : Backend)
    (s : pystate) (p : string) :
  @arcpy_found Ba = true → @arcpy_found Bo = false →
  self_dict s !! "path" = Some p →
  "Feature dataset" ∉ GDB_FC_PROPS.*2 →
  (∀ fcs,
     fst (get_feature_classes (B:=Ba) s) = Ok fcs ↔
     ∃ fds in_datasets root at_root,
       @arcpy_ListDatasets Ba (Some p) = Ok fds ∧
       Forall2 (fun fd ods =>
                  ∃ names,
                    @arcpy_ListFeatureClasses Ba (Some (@os_path_join Ba p fd)) = Ok names ∧
                    Forall2 (fun fc od =>
                               arcpy_fc_entry (B:=Ba) (Some (@os_path_join Ba p fd)) fd fc = Ok od
                               ∧ OD.get "Feature dataset" od = Some (VStr fd))
                            names ods)
               fds in_datasets ∧
       @arcpy_ListFeatureClasses Ba (Some p) = Ok root ∧
       Forall2 (fun fc od =>
                  arcpy_fc_entry (B:=Ba) (Some p) "" fc = Ok od
                  ∧ OD.get "Feature dataset" od = Some (VStr ""))
               root at_root ∧
       fcs = concat in_datasets ++ at_root) ∧
  returns (get_feature_classes (B:=Bo))
    (Forall (fun od => OD.get "Feature dataset" od = None)).
Proof.
  intros Ha Ho Hp Hlabel. split.
  - intros fcs. rewrite (get_feature_classes_arcpy (B:=Ba) s p Ha Hp).
    unfold arcpy_feature_classes. split.
    + intros (fds & Hfds & (ins & Hins%mapM_Ok & (root & Hroot & [= <-])%bind_Ok)%bind_Ok)%bind_Ok.
      unfold arcpy_fc_list in Hroot.
      apply bind_Ok in Hroot as (names & Hnames & Hroot%mapM_Ok).
      exists fds, ins, names, root. repeat split; [done| |done| ].
      * eapply Forall2_impl; [exact Hins|]. intros fd ods.
        unfold arcpy_fc_list. intros (ns & Hns & Hods%mapM_Ok)%bind_Ok.
        exists ns. split; [done|].
        eapply Forall2_impl; [exact Hods|]. intros fc od Hod.
        split; [done | exact (arcpy_fc_entry_dataset (B:=Ba) _ _ _ _ Hod)].
      * eapply Forall2_impl; [exact Hroot|]. intros fc od Hod.
        split; [done | exact (arcpy_fc_entry_dataset (B:=Ba) _ _ _ _ Hod)].
    + intros (fds & ins & root & at_root & -> & Hins & Hroot & Hat & ->). simpl.
      assert (mapM (fun fd => arcpy_fc_list (B:=Ba) (Some (@os_path_join Ba p fd)) fd) fds
              = Ok ins) as ->.
      { apply mapM_Ok. eapply Forall2_impl; [exact Hins|].
        intros fd ods (ns & Hns & Hods). unfold arcpy_fc_list. rewrite Hns. simpl.
        apply mapM_Ok. eapply Forall2_impl; [exact Hods|]. by intros fc od [? _]. }
      simpl. unfold arcpy_fc_list. rewrite Hroot. simpl.
      assert (mapM (arcpy_fc_entry (B:=Ba) (Some p) "") root = Ok at_root) as ->; [|done].
      apply mapM_Ok. eapply Forall2_impl; [exact Hat|]. by intros fc od [? _].
  - intros s' fcs Hfcs. apply (get_feature_classes_ogr_keys (B:=Bo) Ho) in Hfcs.
    eapply Forall_impl; [exact Hfcs|]. intros od Hod. simpl in Hod.
    apply OD_get_None. rewrite Hod. unfold fc_keys.
    rewrite add_key_elem, add_keys_elem, elem_of_nil. naive_solver.
Qed.

Lemma feature_dataset_entries_witness :
  (@arcpy_found (Demo.arcpy []) = true ∧
   @arcpy_found (Demo.ogr [] (Demo.Speed "1" "5")) = false ∧
   self_dict Demo.state !! "path" = Some Demo.gdb ∧
   "Feature dataset" ∉ (@GDB_FC_PROPS Demo.mappings).*2) ∧
  returns (get_feature_classes (T:=Demo.mappings) (B:=Demo.ogr [] (Demo.Speed "1" "5")))
    (Forall (fun od => OD.get "Feature dataset" od = None)).
Proof.
  assert ("Feature dataset" ∉ (@GDB_FC_PROPS Demo.mappings).*2) as Hlabel
    by (simpl; set_solver).
  split; [by repeat split|].
  apply (feature_dataset_entries Demo.mappings (Demo.arcpy [])
           (Demo.ogr [] (Demo.Speed "1" "5")) Demo.state Demo.gdb);
    [reflexivity | reflexivity | reflexivity | exact Hlabel].
Defined.

(* ===================================================================== *)
(** ** The fallback domain scan                                           *)
(* ===================================================================== *)

Lemma mapM_app {X A} (f : X → result A) xs1 xs2 :
  mapM f (xs1 ++ xs2) = ys1 ← mapM f xs1; ys2 ← mapM f xs2; mret (ys1 ++ ys2).
Proof.
  induction xs1 as [|x xs1 IH]; simpl.
  - by destruct (mapM f xs2).
  - destruct (f x); simpl; [|done]. rewrite IH.
    destruct (mapM f xs1); simpl; [|done]. by destruct (mapM f xs2).
Qed.

Lemma mapM_cons {X A} (f : X → result A) x xs :
  mapM f (x :: xs) = y ← f x; ys ← mapM f xs; mret (y :: ys).
Proof. reflexivity. Qed.

Lemma mapM_fmap {X Y A} (f : Y → result A) (h : X → Y) xs :
  mapM f (h <$> xs) = mapM (fun x => f (h x)) xs.
Proof.
  induction xs as [|x xs IH]; [done|]. by rewrite fmap_cons, !mapM_cons, IH.
Qed.

(** The two nested accumulating loops of the fallback path of
    [get_domains] visit the filed domains in order. *)
Lemma foldM_nested {X Y A} (f : X → Y → result A) (xs : list (X * list Y)) acc :
  foldM (fun acc '(x, ys) =>
           foldM (fun acc y => a ← f x y; mret (acc ++ [a])) acc ys) acc xs
  = l ← mapM (fun xy => f xy.1 xy.2) (xs ≫= fun '(x, ys) => (x,.) <$> ys);
    mret (acc ++ l).
Proof.
  revert acc. induction xs as [|[x ys] xs IH]; intros acc.
  - simpl. by rewrite app_nil_r.
  - rewrite foldM_cons, foldM_append, bind_cons, mapM_app, mapM_fmap.
    change (mapM (fun y => f (x, y).1 (x, y).2) ys) with (mapM (f x) ys).
    destruct (mapM (f x) ys) as [l1|]; rewrite ?result_bind_Ok, ?result_bind_Raise;
      [|done].
    rewrite IH. destruct (mapM _ (xs ≫= _));
      rewrite ?result_bind_Ok, ?result_bind_Raise; [|done].
    unfold mret, result_ret. by rewrite app_assoc.
Qed.

Lemma mapM_total {X A} (f : X → result A) xs :
  Forall (fun x => is_ok (f x) = true) xs → ∃ ys, mapM f xs = Ok ys.
Proof.
  induction 1 as [|x xs Hx _ [ys IH]]; simpl; [by eexists|].
  apply is_ok_true in Hx as [y ->]. rewrite IH. by eexists.
Qed.

Lemma Forall2_elem_of_l {X Y} (R : X → Y → Prop) xs ys x :
  Forall2 R xs ys → x ∈ xs → ∃ y, y ∈ ys ∧ R x y.
Proof.
  induction 1 as [|x0 y0 xs ys Hxy _ IH]; [by intros ?%elem_of_nil|].
  intros [->|Hin]%elem_of_cons.
  - exists y0. split; [apply list_elem_of_here | done].
  - destruct (IH Hin) as (y & Hy & HR). exists y. split; [by apply list_elem_of_further | done].
Qed.

Lemma filed_domains_elem g t domain :
  (t, domain) ∈ filed_domains g ↔ ∃ ds, g !! t = Some ds ∧ domain ∈ ds.
Proof.
  unfold filed_domains. rewrite list_elem_of_bind. split.
  - intros ([t' ds] & Hin & Hg). apply elem_of_map_to_list in Hg.
    apply list_elem_of_fmap in Hin as (d & [= -> ->] & Hd). eauto.
  - intros (ds & Hg & Hd). exists (t, ds). split.
    + apply list_elem_of_fmap. eauto.
    + by apply elem_of_map_to_list.
Qed.

Section DomainScan.
Context {T : Mappings} {B : Backend}.

Lemma _ogr_get_domains_M s :
  snd (_ogr_get_domains s) = s.
Proof.
  unfold _ogr_get_domains. rewrite bind_M. unfold self_attr, lift.
  by destruct (self_dict s !! "path").
Qed.

Lemma domains_step_skip g item :
  truthy item = false → domains_step g item = Ok g.
Proof. intros Hitem. unfold domains_step. by rewrite Hitem. Qed.

Lemma domains_step_parse g item xml :
  truthy item = true → ET_fromstring (default "" item) = Ok xml →
  domains_step g item
  = Ok (if bool_decide (tag xml ∈ domain_tags)
        then defaultdict_append (tag xml) xml g else g).
Proof.
  intros Hitem Hxml. unfold domains_step. rewrite Hitem, Hxml. simpl.
  fold domain_tags. by case_bool_decide.
Qed.

(** The scan files a definition under its root tag when that tag is one of
    the two domain tags, and nowhere otherwise. *)
Lemma domains_scan rows defs g0 :
  Forall2 (fun item xml => ET_fromstring (default "" item) = Ok xml)
          (defined_rows rows) defs →
  ∃ g, foldM domains_step g0 rows = Ok g ∧
       ∀ t, g !! t =
            if bool_decide (t ∈ domain_tags) then
              match filter (fun xml => tag xml = t) defs with
              | [] => g0 !! t
              | l => Some (default [] (g0 !! t) ++ l)
              end
            else g0 !! t.
Proof.
  unfold defined_rows. revert defs g0.
  induction rows as [|item rows IH]; intros defs g0 Hdefs.
  - inversion Hdefs; subst. exists g0. split; [done|]. intros t. by case_bool_decide.
  - rewrite foldM_cons. rewrite filter_cons in Hdefs.
    destruct (truthy item) eqn:Hitem.
    + rewrite decide_True in Hdefs by done.
      inversion Hdefs as [|? xml ? defs' Hxml Hrest]; subst.
      rewrite (domains_step_parse _ _ _ Hitem Hxml), result_bind_Ok.
      case_bool_decide as Htag.
      * destruct (IH defs' (defaultdict_append (tag xml) xml g0) Hrest) as (g & -> & Hg).
        exists g. split; [done|]. intros t. rewrite Hg. clear Hg.
        unfold defaultdict_append. case_bool_decide as Ht;
          [|by rewrite lookup_insert_ne by (by intros <-)].
        rewrite filter_cons.
        destruct (decide (tag xml = t)) as [->|Hne].
        -- rewrite lookup_insert_eq. simpl.
           destruct (filter _ defs'); simpl; [done|]. by rewrite <- app_assoc.
        -- by rewrite lookup_insert_ne.
      * destruct (IH defs' g0 Hrest) as (g & -> & Hg).
        exists g. split; [done|]. intros t. rewrite Hg.
        case_bool_decide as Ht; [|done].
        rewrite filter_cons. rewrite decide_False; [done|]. by intros <-.
    + rewrite decide_False in Hdefs by done.
      rewrite (domains_step_skip _ _ Hitem), result_bind_Ok. by apply IH.
Qed.

(** Whatever the rows, what the scan has filed is filed under a domain tag
    and carries that tag. *)
Lemma domains_scan_tags rows g t ds :
  foldM domains_step ∅ rows = Ok g → g !! t = Some ds →
  t ∈ domain_tags ∧ Forall (fun xml => tag xml = t) ds.
Proof.
  intros Hg. revert t ds. revert Hg.
  apply (foldM_result_inv domains_step
           (fun g => ∀ t ds, g !! t = Some ds →
                             t ∈ domain_tags ∧ Forall (fun xml => tag xml = t) ds)).
  - intros t ds. by rewrite lookup_empty.
  - intros g0 item g1 Hinv. unfold domains_step.
    destruct (truthy item); [|by intros [= <-]].
    destruct (ET_fromstring _) as [xml|]; simpl; [|done].
    fold domain_tags. case_bool_decide as Htag; intros [= <-]; [|done].
    intros t ds. unfold defaultdict_append.
    destruct (decide (t = tag xml)) as [->|Hne].
    + rewrite lookup_insert_eq. intros [= <-]. split; [exact Htag|].
      apply Forall_app. split; [|by repeat constructor].
      destruct (g0 !! tag xml) as [ds0|] eqn:Hg0; simpl; [|constructor].
      by apply (Hinv _ _ Hg0).
    + rewrite lookup_insert_ne by done. apply Hinv.
Qed.

Lemma _ogr_get_domains_tags s g t ds :
  fst (_ogr_get_domains s) = Ok g → g !! t = Some ds →
  t ∈ domain_tags ∧ Forall (fun xml => tag xml = t) ds.
Proof.
  unfold _ogr_get_domains. rewrite bind_M. unfold self_attr at 1, lift.
  destruct (self_dict s !! "path") as [p|]; simpl; [|done].
  intros (d & _ & (rows & _ & Hg)%bind_Ok)%bind_Ok. by apply (domains_scan_tags rows).
Qed.

(** The fallback path of [get_domains] builds one mapping for each filed
    domain, in order, and raises when building one of them raises. *)
Lemma get_domains_ogr s g :
  arcpy_found = false → fst (_ogr_get_domains s) = Ok g →
  fst (get_domains s)
  = mapM (fun td => ogr_domain_props td.1 td.2) (filed_domains g).
Proof.
  intros Harc Hg. unfold get_domains. rewrite Harc, bind_M.
  destruct (_ogr_get_domains s) as [[g'|e] s'] eqn:Hscan; simpl in Hg; [|done].
  injection Hg as ->. unfold lift. simpl. rewrite foldM_nested.
  unfold filed_domains. by destruct (mapM _ _).
Qed.

Lemma get_domains_ogr_has s g l t ds domain :
  arcpy_found = false → fst (_ogr_get_domains s) = Ok g →
  fst (get_domains s) = Ok l → g !! t = Some ds → domain ∈ ds →
  ∃ od, od ∈ l ∧ ogr_domain_props t domain = Ok od.
Proof.
  intros Harc Hg Hl Ht Hd. rewrite (get_domains_ogr s g Harc Hg) in Hl.
  apply mapM_Ok in Hl.
  eapply (Forall2_elem_of_l _ _ _ (t, domain)) in Hl; [done|].
  apply filed_domains_elem. eauto.
Qed.

(** The primary path builds one mapping for each listed domain. *)
Lemma get_domains_arcpy s p :
  arcpy_found = true → self_dict s !! "path" = Some p →
  fst (get_domains s)
  = (domains ← arcpy_da_ListDomains p; mapM (props_of GDB_DOMAIN_PROPS) domains).
Proof.
  intros Harc Hp. unfold get_domains. rewrite Harc, bind_M.
  unfold self_attr at 1, lift. rewrite Hp. simpl.
  destruct (arcpy_da_ListDomains p) as [domains|]; simpl; [|done].
  rewrite foldM_append. by destruct (mapM _ domains).
Qed.

End DomainScan.



Lemma wkspc_type_fallback_constant_witness :
  @arcpy_found (Demo.ogr [] (Demo.Speed "1" "5")) = false ∧
  _get_wkspc_type (T:=Demo.mappings) (B:=Demo.ogr [] (Demo.Speed "1" "5")) Demo.state
  = (Ok "File geodatabase", Demo.state).
Proof.
  split; [reflexivity|].
  apply (wkspc_type_fallback_constant (T:=Demo.mappings)
           (B:=Demo.ogr [] (Demo.Speed "1" "5")) Demo.gdb Demo.state).
  reflexivity.
Defined.

(* ===================================================================== *)
(** ** The properties of one domain on the fallback path                  *)
(* ===================================================================== *)

Lemma find_text_Some e k c : find e k = Some c → find_text e k = Ok (text c).
Proof. intros Hc. unfold find_text. by rewrite Hc. Qed.

Lemma find_text_None e k : find e k = None → find_text e k = Raise AttributeError.
Proof. intros Hc. unfold find_text. by rewrite Hc. Qed.

Lemma find_text_outcome e k :
  (∃ t, find_text e k = Ok t) ∨ find_text e k = Raise AttributeError.
Proof. unfold find_text. destruct (find e k); eauto. Qed.

Section CodedValues.
Implicit Types (cvs : list Element) (d : gmap (option string) (option string)).

Lemma coded_values_from cvs d :
  Forall (fun cv => is_Some (find cv "Code") ∧ is_Some (find cv "Name")) cvs →
  foldM (fun d cv =>
           code ← find_text cv "Code";
           name ← find_text cv "Name";
           mret (<[code := name]> d)) d cvs
  = Ok (foldl (fun d cv => <[code_of cv := name_of cv]> d) d cvs).
Proof.
  intros Hwf. revert d. induction Hwf as [|cv cvs [[c Hc] [n Hn]] _ IH]; intros d.
  - done.
  - rewrite foldM_cons. rewrite (find_text_Some _ _ _ Hc), (find_text_Some _ _ _ Hn).
    simpl. rewrite IH. unfold code_of, name_of. by rewrite Hc, Hn.
Qed.

(** The comprehension can only fail on a missing [Code] or [Name]. *)
Lemma coded_values_outcome cvs :
  (∃ d, coded_values cvs = Ok d) ∨ coded_values cvs = Raise AttributeError.
Proof.
  unfold coded_values. generalize (∅ : gmap (option string) (option string)).
  induction cvs as [|cv cvs IH]; intros d; [by left; eexists|].
  rewrite foldM_cons.
  destruct (find_text_outcome cv "Code") as [[c ->]| ->]; [|by right].
  destruct (find_text_outcome cv "Name") as [[n ->]| ->]; [|by right].
  simpl. apply IH.
Qed.

(** A [CodedValue] without [Code] or without [Name] ends it: what the
    earlier ones contributed is lost. *)
Lemma coded_values_incomplete cvs :
  Exists (fun cv => find cv "Code" = None ∨ find cv "Name" = None) cvs →
  coded_values cvs = Raise AttributeError.
Proof.
  unfold coded_values. generalize (∅ : gmap (option string) (option string)).
  induction cvs as [|cv cvs IH]; intros d Hex; [by apply Exists_nil in Hex|].
  rewrite foldM_cons.
  destruct (find_text_outcome cv "Code") as [[c Hc]| ->]; [|done].
  destruct (find_text_outcome cv "Name") as [[n Hn]|Hn]; rewrite Hc, Hn; [|done].
  simpl. apply IH.
  apply Exists_cons in Hex as [[Hcode|Hname]|Hex]; [| |done].
  - rewrite (find_text_None _ _ Hcode) in Hc. discriminate Hc.
  - rewrite (find_text_None _ _ Hname) in Hn. discriminate Hn.
Qed.

Lemma coded_table_dom cvs d :
  dom (foldl (fun d cv => <[code_of cv := name_of cv]> d) d cvs)
  = dom d ∪ list_to_set (code_of <$> cvs).
Proof.
  revert d. induction cvs as [|cv cvs IH]; intros d; simpl.
  - set_solver.
  - rewrite IH, dom_insert_L. set_solver.
Qed.

Lemma coded_table_other cvs d code :
  Forall (fun cv => code_of cv ≠ code) cvs →
  foldl (fun d cv => <[code_of cv := name_of cv]> d) d cvs !! code = d !! code.
Proof.
  intros Hother. revert d. induction Hother as [|cv cvs Hcv _ IH]; intros d; simpl.
  - done.
  - rewrite IH. by apply lookup_insert_ne.
Qed.

(** A code maps to the name of the last [CodedValue] that carries it. *)
Lemma coded_table_last cvs d i cv :
  cvs !! i = Some cv →
  (∀ j cv', i < j → cvs !! j = Some cv' → code_of cv' ≠ code_of cv) →
  foldl (fun d cv => <[code_of cv := name_of cv]> d) d cvs !! code_of cv
  = Some (name_of cv).
Proof.
  revert d i. induction cvs as [|cv0 cvs IH]; intros d i Hi Hlast; [done|].
  destruct i as [|i]; simpl in *.
  - injection Hi as ->. rewrite coded_table_other; [apply lookup_insert_eq|].
    apply Forall_forall. intros cv' [j Hj]%list_elem_of_lookup.
    apply (Hlast (S j)); [lia | done].
  - apply (IH _ i Hi). intros j cv' Hij Hj. apply (Hlast (S j)); [lia | done].
Qed.

End CodedValues.

Section DomainProps.
Context {T : Mappings} {B : Backend}.

Lemma float_of_text_outcome t :
  (∃ x, float_of_text t = Ok x) ∨ float_of_text t = Raise TypeError
  ∨ float_of_text t = Raise ValueError.
Proof. unfold float_of_text. destruct t as [s|]; [destruct (float_of_str s)|]; eauto. Qed.

Lemma ogr_domain_prop_codedValues t domain c :
  find domain "CodedValues" = Some c →
  Forall (fun cv => is_Some (find cv "Code") ∧ is_Some (find cv "Name"))
         (findall c "CodedValue") →
  ogr_domain_prop t domain "codedValues"
  = Ok (VDict (foldl (fun d cv => <[code_of cv := name_of cv]> d) ∅
                     (findall c "CodedValue"))).
Proof.
  intros Hc Hwf. unfold ogr_domain_prop.
  rewrite !decide_False, decide_True by done. rewrite Hc.
  unfold coded_values. by rewrite coded_values_from.
Qed.

Lemma ogr_domain_prop_incomplete t domain :
  incomplete_codes domain → ogr_domain_prop t domain "codedValues" = Ok (VStr "").
Proof.
  unfold incomplete_codes, ogr_domain_prop.
  rewrite !decide_False, decide_True by done.
  destruct (find domain "CodedValues") as [c|]; [|done].
  intros Hex. by rewrite (coded_values_incomplete _ Hex).
Qed.

(** What the [range] branch computes, by cases on the two bounds. *)
Lemma ogr_domain_prop_range t domain x :
  ogr_domain_prop t domain "range" = Ok x →
  match find domain "MinValue", find domain "MaxValue" with
  | Some lo_el, Some hi_el =>
      ∃ lo hi, float_of_text (text lo_el) = Ok lo ∧
               float_of_text (text hi_el) = Ok hi ∧ x = VRange lo hi
  | _, _ => x = VStr ""
  end.
Proof.
  unfold ogr_domain_prop. rewrite decide_False, decide_True by done.
  unfold find_text.
  destruct (find domain "MinValue") as [lo_el|]; simpl; [|by intros [= <-]].
  destruct (float_of_text_outcome (text lo_el)) as [[lo ->]|[-> | ->]]; simpl; [|done..].
  destruct (find domain "MaxValue") as [hi_el|]; simpl; [|by intros [= <-]].
  destruct (float_of_text_outcome (text hi_el)) as [[hi ->]|[-> | ->]]; simpl; [|done..].
  intros [= <-]. eauto.
Qed.

(** With the label of the domain type in the table and bounds that
    [float] accepts, no property of a domain raises. *)
Lemma ogr_domain_prop_total t domain k :
  is_Some (OGR_DOMAIN_PROPS_MAPPINGS !! t) → numeric_bounds domain →
  is_ok (ogr_domain_prop t domain k) = true.
Proof.
  intros [label Hlabel] Hnum. unfold ogr_domain_prop.
  repeat case_decide.
  - by rewrite Hlabel.
  - unfold find_text.
    destruct (find domain "MinValue") as [lo_el|] eqn:Hlo; simpl; [|done].
    assert (is_ok (float_of_text (text lo_el)) = true) as [lo ->]%is_ok_true
      by (apply (Hnum "MinValue"); [set_solver | done]).
    simpl. destruct (find domain "MaxValue") as [hi_el|] eqn:Hhi; simpl; [|done].
    assert (is_ok (float_of_text (text hi_el)) = true) as [hi ->]%is_ok_true
      by (apply (Hnum "MaxValue"); [set_solver | done]).
    done.
  - destruct (find domain "CodedValues") as [c|]; simpl; [|done].
    by destruct (coded_values_outcome (findall c "CodedValue")) as [[d ->]| ->].
  - destruct (find_text_outcome domain k) as [[x ->]| ->]; simpl; [|done].
    by destruct (truthy x).
Qed.

(** A property whose sub-element is absent is the empty string. *)
Lemma ogr_domain_prop_missing t domain k :
  numeric_bounds domain → missing domain k →
  ogr_domain_prop t domain k = Ok (VStr "").
Proof.
  intros Hnum. unfold missing, ogr_domain_prop. repeat case_decide.
  - done.
  - unfold find_text. intros Hmiss.
    destruct (find domain "MinValue") as [lo_el|] eqn:Hlo; simpl; [|done].
    assert (is_ok (float_of_text (text lo_el)) = true) as [lo ->]%is_ok_true
      by (apply (Hnum "MinValue"); [set_solver | done]).
    simpl. destruct Hmiss as [?| ->]; done.
  - by intros ->.
  - intros Hk. by rewrite (find_text_None _ _ Hk).
Qed.

End DomainProps.

(* ===================================================================== *)
(** ** The domains of get_domains                                         *)
(* ===================================================================== *)

(** C4, as the code has it.  With [va] and [vo] the labels of
    [codedValues] in the two domain tables (no label used twice).  On the
    primary path the entry under [va] is the [codedValues] attribute of the
    listed domain itself (or [''] when the domain has none).  On the
    fallback path [get_domains] returns a mapping for every filed domain.
    Where the definition has a [CodedValues] element whose [CodedValue]
    children each have a [Code] and a [Name], the entry under [vo] is a
    dict, the keys of that dict are exactly the [Code] texts, and each code
    maps to the [Name] text of the (last) [CodedValue] carrying it.  Where
    the element is absent, or one child lacks its [Code] or its [Name], the
    entry is [''], whatever codes the definition has. *)
Theorem coded_values_keys (T : Mappings) (Ba Bo : Backend)
    (sa so : pystate) (p va vo : string) :
  @arcpy_found Ba = true → @arcpy_found Bo = false →
  self_dict sa !! "path" = Some p →
  NoDup GDB_DOMAIN_PROPS.*2 → ("codedValues", va) ∈ GDB_DOMAIN_PROPS →
  NoDup OGR_GDB_DOMAIN_PROPS.*2 → ("codedValues", vo) ∈ OGR_GDB_DOMAIN_PROPS →
  (∀ domains la,
     @arcpy_da_ListDomains Ba p = Ok domains →
     fst (get_domains (B:=Ba) sa) = Ok la →
     Forall2 (fun domain od =>
                ∃ x, getattr domain "codedValues" (VStr "") = Ok x ∧
                     OD.get va od = Some x)
             domains la) ∧
  (∀ g lo t ds domain c,
     fst (_ogr_get_domains (B:=Bo) so) = Ok g →
     fst (get_domains (B:=Bo) so) = Ok lo →
     g !! t = Some ds → domain ∈ ds →
     find domain "CodedValues" = Some c →
     Forall (fun cv => is_Some (find cv "Code") ∧ is_Some (find cv "Name"))
            (findall c "CodedValue") →
     ∃ od m,
       od ∈ lo ∧ ogr_domain_props (B:=Bo) t domain = Ok od ∧
       OD.get vo od = Some (VDict m) ∧
       dom m = list_to_set (code_of <$> findall c "CodedValue") ∧
       ∀ i cv,
         findall c "CodedValue" !! i = Some cv →
         (∀ j cv', i < j → findall c "CodedValue" !! j = Some cv' →
                   code_of cv' ≠ code_of cv) →
         m !! code_of cv = Some (name_of cv)) ∧
  (∀ g lo t ds domain,
     fst (_ogr_get_domains (B:=Bo) so) = Ok g →
     fst (get_domains (B:=Bo) so) = Ok lo →
     g !! t = Some ds → domain ∈ ds →
     incomplete_codes domain →
     ∃ od,
       od ∈ lo ∧ ogr_domain_props (B:=Bo) t domain = Ok od ∧
       OD.get vo od = Some (VStr "")).
Proof.
  intros Ha Ho Hp Hnda Hva Hndo Hvo. split; [|split].
  - intros domains la Hdomains Hla.
    rewrite (get_domains_arcpy (B:=Ba) sa p Ha Hp), Hdomains in Hla.
    apply mapM_Ok in Hla. eapply Forall2_impl; [exact Hla|].
    intros domain od Hod. exact (fill_props_get _ _ _ _ _ Hnda Hva Hod).
  - intros g lo t ds domain c Hg Hlo Ht Hdomain Hc Hwf.
    destruct (get_domains_ogr_has (B:=Bo) so g lo t ds domain Ho Hg Hlo Ht Hdomain)
      as (od & Hin & Hod).
    destruct (fill_props_get _ _ _ _ _ Hndo Hvo Hod) as (x & Hx & Hget).
    rewrite (ogr_domain_prop_codedValues (B:=Bo) t domain c Hc Hwf) in Hx.
    injection Hx as <-. eexists od, _. repeat split; [done..| |].
    + rewrite coded_table_dom, dom_empty_L. set_solver.
    + intros i cv Hi Hlast. by eapply coded_table_last.
  - intros g lo t ds domain Hg Hlo Ht Hdomain Hinc.
    destruct (get_domains_ogr_has (B:=Bo) so g lo t ds domain Ho Hg Hlo Ht Hdomain)
      as (od & Hin & Hod).
    destruct (fill_props_get _ _ _ _ _ Hndo Hvo Hod) as (x & Hx & Hget).
    rewrite (ogr_domain_prop_incomplete (B:=Bo) t domain Hinc) in Hx.
    injection Hx as <-. by exists od.
Qed.

Lemma coded_values_keys_witness :
  (@arcpy_found (Demo.arcpy []) = true ∧
   @arcpy_found (Demo.ogr [] (Demo.Speed "1" "5")) = false ∧
   self_dict Demo.state !! "path" = Some Demo.gdb ∧
   NoDup (@GDB_DOMAIN_PROPS Demo.mappings).*2 ∧
   ("codedValues", "Coded values") ∈ @GDB_DOMAIN_PROPS Demo.mappings ∧
   NoDup (@OGR_GDB_DOMAIN_PROPS Demo.mappings).*2 ∧
   ("codedValues", "Coded values") ∈ @OGR_GDB_DOMAIN_PROPS Demo.mappings) ∧
  ∃ lo od m,
    fst (get_domains (T:=Demo.mappings) (B:=Demo.ogr [] (Demo.Speed "1" "5"))
           Demo.state) = Ok lo ∧
    od ∈ lo ∧
    OD.get "Coded values" od = Some (VDict m) ∧
    dom m = {[ Some "1"; Some "2" ]} ∧
    m !! Some "2" = Some (Some "Street").
Proof.
  assert (NoDup (@GDB_DOMAIN_PROPS Demo.mappings).*2) as Hnda
    by (simpl; repeat (apply NoDup_cons; split; [set_solver|]); apply NoDup_nil_2).
  assert (NoDup (@OGR_GDB_DOMAIN_PROPS Demo.mappings).*2) as Hndo
    by (simpl; repeat (apply NoDup_cons; split; [set_solver|]); apply NoDup_nil_2).
  assert (("codedValues", "Coded values") ∈ @GDB_DOMAIN_PROPS Demo.mappings) as Hva
    by (simpl; set_solver).
  assert (("codedValues", "Coded values") ∈ @OGR_GDB_DOMAIN_PROPS Demo.mappings) as Hvo
    by (simpl; set_solver).
  split; [by repeat split|].
  destruct (coded_values_keys Demo.mappings (Demo.arcpy [])
              (Demo.ogr [] (Demo.Speed "1" "5")) Demo.state Demo.state Demo.gdb
              "Coded values" "Coded values"
              eq_refl eq_refl eq_refl Hnda Hva Hndo Hvo) as (_ & Hogr & _).
  set (g := match fst (_ogr_get_domains (B:=Demo.ogr [] (Demo.Speed "1" "5"))
                         Demo.state) with
            | Ok g => g
            | Raise _ => ∅
            end).
  set (lo := match fst (get_domains (T:=Demo.mappings)
                          (B:=Demo.ogr [] (Demo.Speed "1" "5")) Demo.state) with
             | Ok lo => lo
             | Raise _ => []
             end).
  destruct (Hogr g lo "GPCodedValueDomain2" [Demo.RoadType] Demo.RoadType
              (Elem "CodedValues" None
                 [Demo.coded_value "1" "Highway"; Demo.coded_value "2" "Street"]))
    as (od & m & Hin & _ & Hget & Hdom & Hnames).
  - vm_compute. reflexivity.
  - vm_compute. reflexivity.
  - vm_compute. reflexivity.
  - apply list_elem_of_here.
  - reflexivity.
  - repeat constructor; by eexists.
  - exists lo, od, m. split; [vm_compute; reflexivity|]. split; [exact Hin|].
    split; [exact Hget|]. split.
    + rewrite Hdom. vm_compute. reflexivity.
    + apply (Hnames 1 (Demo.coded_value "2" "Street")); [reflexivity|].
      intros j cv' Hj Hcv'. destruct j as [|[|j]]; [lia | lia | discriminate Hcv'].
Defined.

(** C4 as stated fails on a catalog whose coded-value domain [Surface] has
    the codes [1] and [2], the second without a [Name]: [get_domains]
    returns one mapping for it, with [''] where the mapping of codes should
    be, so neither code is a key of anything.  The branch for [codedValues]
    consults no table, so this is the entry for [Surface] whatever the
    tables and the backend are. *)
Lemma coded_values_dropped :
  (∃ od,
     fst (_ogr_get_domains (B:=Demo.with_definitions [("<Surface>", Demo.Surface)])
            Demo.state)
       = Ok {[ "GPCodedValueDomain2" := [Demo.Surface] ]} ∧
     fst (get_domains (T:=Demo.mappings)
            (B:=Demo.with_definitions [("<Surface>", Demo.Surface)]) Demo.state)
       = Ok [od] ∧
     OD.get "Name" od = Some (VStr "Surface") ∧
     OD.get "Domain type" od = Some (VStr "CodedValue") ∧
     OD.get "Coded values" od = Some (VStr "")) ∧
  (∃ c, find Demo.Surface "CodedValues" = Some c ∧
        code_of <$> findall c "CodedValue" = [Some "1"; Some "2"] ∧
        name_of <$> findall c "CodedValue" = [Some "Paved"; None]) ∧
  (∀ (T : Mappings) (B : Backend) t,
     ogr_domain_prop t Demo.Surface "codedValues" = Ok (VStr "")).
Proof.
  split; [|split].
  - eexists. split; [vm_compute; reflexivity|].
    split; [vm_compute; reflexivity|]. by repeat split.
  - eexists. split; [reflexivity|]. by split.
  - intros T B t. apply ogr_domain_prop_incomplete.
    unfold incomplete_codes. simpl. apply Exists_cons_tl, Exists_cons_hd. by right.
Qed.

(** C5, as the code has it.  With [va] and [vo] the labels of [range] in
    the two domain tables.  On the primary path the entry under [va] is the
    [range] attribute of the listed domain itself.  On the fallback path,
    for every filed domain for which [get_domains] returns: when both
    [MinValue] and [MaxValue] are present the entry under [vo] is the pair
    [(float(MinValue.text), float(MaxValue.text))], in that order and
    whatever the order of the two numbers; when either is absent it is
    ['']. *)
Theorem range_as_stored (T : Mappings) (Ba Bo : Backend)
    (sa so : pystate) (p va vo : string) :
  @arcpy_found Ba = true → @arcpy_found Bo = false →
  self_dict sa !! "path" = Some p →
  NoDup GDB_DOMAIN_PROPS.*2 → ("range", va) ∈ GDB_DOMAIN_PROPS →
  NoDup OGR_GDB_DOMAIN_PROPS.*2 → ("range", vo) ∈ OGR_GDB_DOMAIN_PROPS →
  (∀ domains la,
     @arcpy_da_ListDomains Ba p = Ok domains →
     fst (get_domains (B:=Ba) sa) = Ok la →
     Forall2 (fun domain od =>
                ∃ x, getattr domain "range" (VStr "") = Ok x ∧ OD.get va od = Some x)
             domains la) ∧
  (∀ g lo t ds domain,
     fst (_ogr_get_domains (B:=Bo) so) = Ok g →
     fst (get_domains (B:=Bo) so) = Ok lo →
     g !! t = Some ds → domain ∈ ds →
     ∃ od,
       od ∈ lo ∧ ogr_domain_props (B:=Bo) t domain = Ok od ∧
       match find domain "MinValue", find domain "MaxValue" with
       | Some lo_el, Some hi_el =>
           ∃ lo hi, float_of_text (B:=Bo) (text lo_el) = Ok lo ∧
                    float_of_text (B:=Bo) (text hi_el) = Ok hi ∧
                    OD.get vo od = Some (VRange lo hi)
       | _, _ => OD.get vo od = Some (VStr "")
       end).
Proof.
  intros Ha Ho Hp Hnda Hva Hndo Hvo. split.
  - intros domains la Hdomains Hla.
    rewrite (get_domains_arcpy (B:=Ba) sa p Ha Hp), Hdomains in Hla.
    apply mapM_Ok in Hla. eapply Forall2_impl; [exact Hla|].
    intros domain od Hod. exact (fill_props_get _ _ _ _ _ Hnda Hva Hod).
  - intros g lo t ds domain Hg Hlo Ht Hdomain.
    destruct (get_domains_ogr_has (B:=Bo) so g lo t ds domain Ho Hg Hlo Ht Hdomain)
      as (od & Hin & Hod).
    destruct (fill_props_get _ _ _ _ _ Hndo Hvo Hod) as (x & Hx & Hget).
    apply (ogr_domain_prop_range (B:=Bo)) in Hx.
    exists od. split; [done|]. split; [done|].
    destruct (find domain "MinValue"), (find domain "MaxValue");
      [|by subst..].
    destruct Hx as (lo' & hi & Hlo' & Hhi & ->). eauto.
Qed.

Lemma range_as_stored_witness :
  (@arcpy_found (Demo.arcpy []) = true ∧
   @arcpy_found (Demo.ogr [] (Demo.Speed "1" "5")) = false ∧
   self_dict Demo.state !! "path" = Some Demo.gdb ∧
   NoDup (@GDB_DOMAIN_PROPS Demo.mappings).*2 ∧
   ("range", "Range") ∈ @GDB_DOMAIN_PROPS Demo.mappings ∧
   NoDup (@OGR_GDB_DOMAIN_PROPS Demo.mappings).*2 ∧
   ("range", "Range") ∈ @OGR_GDB_DOMAIN_PROPS Demo.mappings) ∧
  ∃ lo od,
    fst (get_domains (T:=Demo.mappings) (B:=Demo.ogr [] (Demo.Speed "1" "5"))
           Demo.state) = Ok lo ∧
    od ∈ lo ∧
    OD.get "Range" od = Some (VRange 1%float 5%float).
Proof.
  assert (NoDup (@GDB_DOMAIN_PROPS Demo.mappings).*2) as Hnda
    by (simpl; repeat (apply NoDup_cons; split; [set_solver|]); apply NoDup_nil_2).
  assert (NoDup (@OGR_GDB_DOMAIN_PROPS Demo.mappings).*2) as Hndo
    by (simpl; repeat (apply NoDup_cons; split; [set_solver|]); apply NoDup_nil_2).
  assert (("range", "Range") ∈ @GDB_DOMAIN_PROPS Demo.mappings) as Hva
    by (simpl; set_solver).
  assert (("range", "Range") ∈ @OGR_GDB_DOMAIN_PROPS Demo.mappings) as Hvo
    by (simpl; set_solver).
  split; [by repeat split|].
  destruct (range_as_stored Demo.mappings (Demo.arcpy [])
              (Demo.ogr [] (Demo.Speed "1" "5")) Demo.state Demo.state Demo.gdb
              "Range" "Range" eq_refl eq_refl eq_refl Hnda Hva Hndo Hvo) as [_ Hogr].
  set (g := match fst (_ogr_get_domains (B:=Demo.ogr [] (Demo.Speed "1" "5"))
                         Demo.state) with
            | Ok g => g
            | Raise _ => ∅
            end).
  set (lo := match fst (get_domains (T:=Demo.mappings)
                          (B:=Demo.ogr [] (Demo.Speed "1" "5")) Demo.state) with
             | Ok lo => lo
             | Raise _ => []
             end).
  destruct (Hogr g lo "GPRangeDomain2" [Demo.Speed "1" "5"] (Demo.Speed "1" "5"))
    as (od & Hin & _ & Hrange).
  - vm_compute. reflexivity.
  - vm_compute. reflexivity.
  - vm_compute. reflexivity.
  - apply list_elem_of_here.
  - simpl in Hrange. destruct Hrange as (x & y & Hx & Hy & Hget).
    exists lo, od. split; [vm_compute; reflexivity|]. split; [exact Hin|].
    vm_compute in Hx. vm_compute in Hy. injection Hx as <-. injection Hy as <-.
    exact Hget.
Defined.

(** C5 as stated fails on a range domain stored with [MinValue] 5 and
    [MaxValue] 1: [get_domains] returns the pair (5.0, 1.0). *)
Lemma range_min_above_max :
  ∃ l od,
    fst (get_domains (T:=Demo.mappings) (B:=Demo.ogr [] (Demo.Speed "5" "1"))
           Demo.state) = Ok l ∧
    od ∈ l ∧
    OD.get "Name" od = Some (VStr "Speed") ∧
    find (Demo.Speed "5" "1") "MinValue" = Some (Demo.leaf "MinValue" "5") ∧
    find (Demo.Speed "5" "1") "MaxValue" = Some (Demo.leaf "MaxValue" "1") ∧
    OD.get "Range" od = Some (VRange 5%float 1%float) ∧
    PrimFloat.leb 5%float 1%float = false.
Proof.
  eexists _, _. split; [vm_compute; reflexivity|].
  split; [apply list_elem_of_further, list_elem_of_here|].
  repeat split; vm_compute; reflexivity.
Qed.

(** C6.  On the fallback path, with a label for each of the two domain
    tags in the table and, in every filed domain, bounds that [float]
    accepts when they are present: [get_domains] returns, and for every
    filed domain it returns a mapping that has every fixed key, in table
    order, and that holds [''] under the label of each property whose
    sub-element is absent from the definition. *)
Theorem missing_elements_resolve_to_empty {T : Mappings} {B : Backend}
    (s : pystate) (g : gmap string (list Element)) :
  arcpy_found = false →
  fst (_ogr_get_domains s) = Ok g →
  (∀ t, t ∈ domain_tags → is_Some (OGR_DOMAIN_PROPS_MAPPINGS !! t)) →
  NoDup OGR_GDB_DOMAIN_PROPS.*2 →
  (∀ t domain, (t, domain) ∈ filed_domains g → numeric_bounds domain) →
  ∃ l, fst (get_domains s) = Ok l ∧
       ∀ t domain, (t, domain) ∈ filed_domains g →
         ∃ od, od ∈ l ∧ ogr_domain_props t domain = Ok od ∧
               OD.keys od = OD.add_keys [] OGR_GDB_DOMAIN_PROPS.*2 ∧
               ∀ k v, (k, v) ∈ OGR_GDB_DOMAIN_PROPS → missing domain k →
                      OD.get v od = Some (VStr "").
Proof.
  intros Harc Hg Hlabels Hnd Hnum.
  rewrite (get_domains_ogr s g Harc Hg).
  destruct (mapM_total (fun td => ogr_domain_props td.1 td.2) (filed_domains g))
    as [l Hl].
  { apply Forall_forall. intros [t domain] Hin. simpl.
    apply is_ok_true, fill_props_ok, Forall_forall. intros [k v] _. simpl.
    apply ogr_domain_prop_total; [|by eapply Hnum].
    apply Hlabels. apply filed_domains_elem in Hin as (ds & Ht & _).
    by destruct (_ogr_get_domains_tags s g t ds Hg Ht). }
  exists l. split; [done|]. intros t domain Hin.
  apply mapM_Ok in Hl.
  destruct (Forall2_elem_of_l _ _ _ _ Hl Hin) as (od & Hod & Hprops). simpl in Hprops.
  exists od. split; [done|]. split; [done|]. split.
  - by apply fill_props_keys in Hprops.
  - intros k v Hkv Hmiss.
    destruct (fill_props_get _ _ _ _ _ Hnd Hkv Hprops) as (x & Hx & Hget).
    rewrite (ogr_domain_prop_missing t domain k) in Hx; [|by eapply Hnum|done].
    by injection Hx as <-.
Qed.

Lemma missing_elements_resolve_to_empty_witness :
  (@arcpy_found Demo.fallback = false ∧
   fst (_ogr_get_domains (B:=Demo.fallback) Demo.state) = Ok Demo.scanned ∧
   (∀ t, t ∈ domain_tags → is_Some (@OGR_DOMAIN_PROPS_MAPPINGS Demo.mappings !! t)) ∧
   NoDup (@OGR_GDB_DOMAIN_PROPS Demo.mappings).*2 ∧
   (∀ t domain, (t, domain) ∈ filed_domains Demo.scanned →
                numeric_bounds (B:=Demo.fallback) domain)) ∧
  ∃ l od,
    fst (get_domains (T:=Demo.mappings) (B:=Demo.fallback) Demo.state) = Ok l ∧
    od ∈ l ∧
    ogr_domain_props (T:=Demo.mappings) (B:=Demo.fallback)
      "GPCodedValueDomain2" Demo.RoadType = Ok od ∧
    OD.keys od = ["Name"; "Domain type"; "Range"; "Coded values"] ∧
    OD.get "Range" od = Some (VStr "").
Proof.
  assert (fst (_ogr_get_domains (B:=Demo.fallback) Demo.state) = Ok Demo.scanned)
    as Hg by (vm_compute; reflexivity).
  assert (∀ t, t ∈ domain_tags → is_Some (@OGR_DOMAIN_PROPS_MAPPINGS Demo.mappings !! t))
    as Hlabels.
  { intros t [->|[->|[]%elem_of_nil]%elem_of_cons]%elem_of_cons; by eexists. }
  assert (NoDup (@OGR_GDB_DOMAIN_PROPS Demo.mappings).*2) as Hnd
    by (simpl; repeat (apply NoDup_cons; split; [set_solver|]); apply NoDup_nil_2).
  assert (("range", "Range") ∈ @OGR_GDB_DOMAIN_PROPS Demo.mappings) as Hrange
    by (simpl; set_solver).
  assert (missing Demo.RoadType "range") as Habsent by (by left).
  assert (filed_domains Demo.scanned
          = [("GPCodedValueDomain2", Demo.RoadType);
             ("GPRangeDomain2", Demo.Speed "1" "5")]) as Hfiled
    by (vm_compute; reflexivity).
  assert (∀ t domain, (t, domain) ∈ filed_domains Demo.scanned →
                      numeric_bounds (B:=Demo.fallback) domain) as Hnum.
  { intros t domain. rewrite Hfiled.
    intros [[= -> ->]|[[= -> ->]|[]%elem_of_nil]%elem_of_cons]%elem_of_cons;
      intros k c [->|[->|[]%elem_of_nil]%elem_of_cons]%elem_of_cons Hc;
      vm_compute in Hc; try discriminate Hc; by injection Hc as <-. }
  split; [by repeat split|].
  destruct (missing_elements_resolve_to_empty (T:=Demo.mappings) (B:=Demo.fallback)
              Demo.state Demo.scanned eq_refl Hg Hlabels Hnd Hnum) as (l & Hl & Hall).
  destruct (Hall "GPCodedValueDomain2" Demo.RoadType) as (od & Hin & Hod & Hkeys & Hmiss).
  { rewrite Hfiled. apply list_elem_of_here. }
  exists l, od. repeat split; [exact Hl | exact Hin | exact Hod | exact Hkeys |].
  exact (Hmiss "range" "Range" Hrange Habsent).
Defined.

(* ===================================================================== *)
(** ** Further properties of the listings                                 *)
(* ===================================================================== *)

Lemma appended_reported_length {X A} (n : X → exn → notice) (g : X → result A) xs :
  length (appended g xs) + length (reported n g xs) = length xs.
Proof.
  induction xs as [|x xs IH]; [done|].
  rewrite appended_cons, reported_cons. destruct (g x); simpl; lia.
Qed.

Lemma layer_names_split ds :
  layer_names false ds ++ layer_names true ds ≡ₚ GetName <$> layers ds.
Proof.
  unfold layer_names. induction (layers ds) as [|l ls IH]; [done|].
  rewrite !filter_cons. destruct (bool_decide (GetGeometryColumn l ≠ "")) eqn:Hl.
  - rewrite decide_False, decide_True by done. rewrite fmap_cons.
    rewrite <- Permutation_middle. by rewrite IH.
  - rewrite decide_True, decide_False by done. rewrite !fmap_cons. simpl.
    by rewrite IH.
Qed.

Section Listings.
Context {T : Mappings} {B : Backend}.

(** X1.  On the primary path, once [arcpy.ListTables()] has answered,
    [get_tables] returns normally whatever the tables do: the mappings of
    the readable tables in listing order, one "could not read table" notice
    for each unreadable one, in listing order too, and the workspace left
    at the geodatabase.  Every listed table is accounted for exactly once. *)
Theorem get_tables_arcpy_accounts_for_every_table (s : pystate) (p : string)
    (tbls : list string) :
  arcpy_found = true → self_dict s !! "path" = Some p →
  arcpy_ListTables (Some p) = Ok tbls →
  ∃ tables notices,
    get_tables s = (Ok tables, after s (Some p) notices) ∧
    tables = appended (arcpy_table_entry (Some p)) tbls ∧
    notices = reported CouldNotReadTable (arcpy_table_entry (Some p)) tbls ∧
    length tables + length notices = length tbls.
Proof.
  intros Harc Hp Htbls. eexists _, _. split; [by apply get_tables_arcpy|].
  split; [done|]. split; [done|]. apply appended_reported_length.
Qed.

(** X2.  On the fallback path, once the data source is open, the layers
    are split between the two listings by their geometry column: those
    without one go to [get_tables], those with one to
    [get_feature_classes], and every layer goes to exactly one of the two.
    Both calls return normally, whatever the layers do. *)
Theorem ogr_layers_split_by_geometry_column (s : pystate) (p : string)
    (ds : DataSource) :
  arcpy_found = false → self_dict s !! "path" = Some p → ogr_Open p = Some ds →
  fst (get_tables s) = Ok (appended (ogr_table_entry p) (layer_names false ds)) ∧
  fst (get_feature_classes s)
    = Ok (appended (ogr_fc_entry p) (layer_names true ds)) ∧
  layer_names false ds
    = GetName <$> filter (fun l => GetGeometryColumn l = "") (layers ds) ∧
  layer_names true ds
    = GetName <$> filter (fun l => GetGeometryColumn l ≠ "") (layers ds) ∧
  layer_names false ds ++ layer_names true ds ≡ₚ GetName <$> layers ds.
Proof.
  intros Harc Hp Hds.
  split; [by rewrite (get_tables_ogr s p ds)|].
  split; [by rewrite (get_feature_classes_ogr s p ds)|].
  split; [|split; [|apply layer_names_split]].
  - unfold layer_names. f_equal. apply list_filter_iff. intros l.
    rewrite bool_decide_eq_false. split; [apply dec_stable | intros -> Hne; by apply Hne].
  - unfold layer_names. f_equal. apply list_filter_iff. intros l.
    by rewrite bool_decide_eq_true.
Qed.

(** X3.  On the fallback path the [try] of the listings does not cover
    opening the data source: for a path [ogr.Open] cannot open (it answers
    [None]), each of [get_tables], [get_feature_classes] and [get_domains]
    raises [AttributeError] and prints nothing, and so does the
    construction of an accessor on that path. *)
Theorem ogr_unopenable_path_raises (s : pystate) (p : string) :
  arcpy_found = false → self_dict s !! "path" = Some p → ogr_Open p = None →
  get_tables s = (Raise AttributeError, s) ∧
  get_feature_classes s = (Raise AttributeError, s) ∧
  get_domains s = (Raise AttributeError, s) ∧
  fst (new_Geodatabase p s) = Raise AttributeError.
Proof.
  intros Harc Hp Hds. repeat split.
  - unfold get_tables. rewrite Harc, bind_M. unfold self_attr at 1. rewrite Hp.
    rewrite bind_M. unfold lift, ogr_open. by rewrite Hds.
  - unfold get_feature_classes. rewrite Harc, bind_M. unfold self_attr at 1.
    rewrite Hp, bind_M. unfold lift, ogr_open. by rewrite Hds.
  - unfold get_domains, _ogr_get_domains. rewrite Harc, !bind_M.
    unfold self_attr at 1. rewrite Hp. unfold lift, ogr_open. by rewrite Hds.
  - assert (∀ s1, self_dict s1 !! "path" = Some p →
                  _get_release s1 = (Raise AttributeError, s1)) as Hrelease.
    { intros s1 Hp1. unfold _get_release, _ogr_get_gdb_metadata.
      rewrite Harc, !bind_M. unfold self_attr at 1. rewrite Hp1.
      unfold lift, ogr_open. by rewrite Hds. }
    unfold new_Geodatabase, __init__. rewrite bind_M. unfold set_self_attr at 1.
    rewrite bind_M, Hrelease; [done|]. apply lookup_insert_eq.
Qed.

End Listings.

(* ===================================================================== *)
(** ** What a query depends on, and what it leaves behind                 *)
(* ===================================================================== *)

Section Respects.
Context (R : pystate → pystate → Prop).

Lemma respects_ret {A} (a : A) : respects R (mret a).
Proof. by intros s1 s2 Hs. Qed.

Lemma respects_lift {A} (r : result A) : respects R (lift r).
Proof. by intros s1 s2 Hs. Qed.

Lemma respects_bind {A A'} (c : M A) (f : A → M A') :
  respects R c → (∀ a, respects R (f a)) → respects R (c ≫= f).
Proof.
  intros Hc Hf s1 s2 Hs. rewrite !bind_M.
  destruct (Hc s1 s2 Hs) as [Hr Hs'].
  destruct (c s1) as [[a1|e1] s1'], (c s2) as [[a2|e2] s2']; simpl in *;
    try discriminate Hr.
  - injection Hr as ->. by apply Hf.
  - by injection Hr as ->.
Qed.

Lemma respects_try {A} (body : M A) (handler : exn → M A) :
  respects R body → (∀ e, respects R (handler e)) →
  respects R (try_except body handler).
Proof.
  intros Hb Hh s1 s2 Hs. rewrite !try_except_M.
  destruct (Hb s1 s2 Hs) as [Hr Hs'].
  destruct (body s1) as [[a1|e1] s1'], (body s2) as [[a2|e2] s2']; simpl in *;
    try discriminate Hr.
  - by injection Hr as ->.
  - injection Hr as ->. by apply Hh.
Qed.

Lemma respects_foldM {A X} (f : A → X → M A) (xs : list X) (acc : A) :
  (∀ acc x, respects R (f acc x)) → respects R (foldM f acc xs).
Proof.
  intros Hf. revert acc. induction xs as [|x xs IH]; intros acc.
  - apply respects_ret.
  - rewrite foldM_cons. apply respects_bind; [apply Hf | apply IH].
Qed.

End Respects.

Lemma respects_self_attr_inputs k : respects same_inputs (self_attr k).
Proof. apply deterministic_self_attr. Qed.

Lemma respects_get_workspace : respects same_inputs get_workspace.
Proof. apply deterministic_get_workspace. Qed.

Lemma respects_set_workspace_inputs w : respects same_inputs (set_workspace w).
Proof. intros s1 s2 [Hd He]. unfold set_workspace, same_inputs. simpl. by rewrite Hd. Qed.

Lemma respects_print_inputs n : respects same_inputs (print n).
Proof. intros s1 s2 [Hd He]. unfold print, same_inputs. simpl. by rewrite Hd, He. Qed.

Lemma respects_self_attr k : respects same_self (self_attr k).
Proof. intros s1 s2 Hd. unfold self_attr, same_self in *. simpl. by rewrite Hd. Qed.

Lemma respects_self_dict_item k : respects same_self (self_dict_item k).
Proof. intros s1 s2 Hd. unfold self_dict_item, same_self in *. simpl. by rewrite Hd. Qed.

Lemma respects_print n : respects same_self (print n).
Proof. by intros s1 s2 Hd. Qed.

(** Setting the workspace makes what follows independent of the workspace
    the call started with. *)
Lemma respects_from_workspace {A} (w : string) (rest : M A) :
  respects same_inputs rest → respects same_self (set_workspace w;; rest).
Proof.
  intros Hrest s1 s2 Hd. rewrite !bind_M. unfold set_workspace at 1 3.
  edestruct (Hrest _ _ (conj Hd eq_refl : same_inputs
               {| self_dict := self_dict s1; env_workspace := Some w; stdout := stdout s1 |}
               {| self_dict := self_dict s2; env_workspace := Some w; stdout := stdout s2 |}))
    as [Hr [Hd' _]].
  by split.
Qed.

#[local] Hint Resolve respects_ret respects_lift respects_self_attr_inputs
  respects_get_workspace respects_set_workspace_inputs respects_print_inputs
  respects_self_attr respects_self_dict_item respects_print : frame.

Ltac respects :=
  repeat first
    [ progress auto with frame
    | apply respects_from_workspace
    | apply respects_bind | apply respects_foldM | apply respects_try
    | match goal with
      | |- ∀ _ : _ * _, _ => intros [? ?]
      | |- ∀ _, _ => intro
      | |- respects _ (match ?x with _ => _ end) => destruct x
      end ].

Section QueryInputs.
Context {T : Mappings} {B : Backend}.






End QueryInputs.

(* ===================================================================== *)
(** ** Two constructions on one path                                      *)
(* ===================================================================== *)


Section ConstructionTwice.
Context {T : Mappings} {B : Backend}.





End ConstructionTwice.



Lemma after_after s w ns w' ns' :
  after (after s w ns) w' ns' = after s w' (ns ++ ns').
Proof. unfold after. simpl. by rewrite app_assoc. Qed.

Lemma set_workspace_after w s : set_workspace w s = (Ok tt, after s (Some w) []).
Proof. unfold set_workspace, after. by rewrite app_nil_r. Qed.

Section WorkspaceAfter.
Context {T : Mappings} {B : Backend}.

Lemma dataset_loop_run p fds acc s w :
  self_dict s !! "path" = Some p →
  ∃ w', foldM (fun fcs fd =>
                 p ← self_attr "path";
                 set_workspace (os_path_join p fd);;
                 arcpy_fc_loop fd fcs) acc fds (after s w [])
        = (in_datasets ← mapM (fun fd => arcpy_fc_list (Some (os_path_join p fd)) fd) fds;
           mret (acc ++ concat in_datasets), after s w' []).
Proof.
  intros Hp. revert acc w. induction fds as [|fd fds IH]; intros acc w.
  - exists w. simpl. by rewrite app_nil_r.
  - rewrite foldM_cons, bind_M, bind_M. unfold self_attr at 1.
    simpl self_dict. rewrite Hp. rewrite bind_M, set_workspace_after, after_after.
    rewrite arcpy_fc_loop_M. simpl app. simpl env_workspace. rewrite mapM_cons.
    destruct (arcpy_fc_list (Some (os_path_join p fd)) fd) as [ods|e];
      rewrite ?result_bind_Ok, ?result_bind_Raise; [|by eexists].
    unfold mret at 1, result_ret at 1.
    destruct (IH (acc ++ ods) (Some (os_path_join p fd))) as [w' ->].
    exists w'. destruct (mapM _ fds); simpl; [by rewrite <- app_assoc | done].
Qed.

Lemma get_feature_classes_arcpy_run s p :
  arcpy_found = true → self_dict s !! "path" = Some p →
  ∃ w, get_feature_classes s = (arcpy_feature_classes p, after s w [])
       ∧ (is_ok (arcpy_feature_classes p) = true → w = Some p).
Proof.
  intros Harc Hp. unfold get_feature_classes, arcpy_feature_classes. rewrite Harc.
  rewrite bind_M. unfold self_attr at 1. rewrite Hp.
  rewrite bind_M, set_workspace_after.
  rewrite bind_M. unfold get_workspace at 1. simpl env_workspace.
  rewrite bind_M. unfold lift at 1.
  destruct (arcpy_ListDatasets (Some p)) as [fds|e]; [|by exists (Some p)].
  rewrite bind_M.
  assert (∀ s0, (match fds with
                 | [] => mret []
                 | _ => foldM (fun fcs fd =>
                                 p ← self_attr "path";
                                 set_workspace (os_path_join p fd);;
                                 arcpy_fc_loop fd fcs) [] fds
                 end) s0
                = foldM (fun fcs fd =>
                           p ← self_attr "path";
                           set_workspace (os_path_join p fd);;
                           arcpy_fc_loop fd fcs) [] fds s0) as ->
    by (by destruct fds).
  destruct (dataset_loop_run p fds [] s (Some p) Hp) as [w' ->].
  rewrite result_bind_Ok.
  destruct (mapM _ fds) as [in_datasets|e];
    rewrite ?result_bind_Ok, ?result_bind_Raise; [|by exists w'].
  unfold mret at 1, result_ret at 1.
  rewrite bind_M. unfold self_attr at 1. simpl self_dict. rewrite Hp.
  rewrite bind_M, set_workspace_after, after_after, arcpy_fc_loop_M. simpl.
  exists (Some p). by destruct (arcpy_fc_list (Some p) "").
Qed.

(** X5.  On the primary path [get_feature_classes] prints nothing and
    changes nothing but the workspace; when it returns, the workspace is
    back at the geodatabase itself, whatever feature datasets it walked. *)
Theorem get_feature_classes_arcpy_leaves_workspace_at_root (s : pystate) (p : string) :
  arcpy_found = true → self_dict s !! "path" = Some p →
  (∃ w, snd (get_feature_classes s) = after s w []) ∧
  (∀ fcs s', get_feature_classes s = (Ok fcs, s') → s' = after s (Some p) []).
Proof.
  intros Harc Hp.
  destruct (get_feature_classes_arcpy_run s p Harc Hp) as (w & Hrun & Hok).
  rewrite Hrun. split; [by exists w|].
  intros fcs s' [= Hfcs <-]. rewrite Hfcs in Hok. by rewrite Hok.
Qed.

End WorkspaceAfter.

(* ===================================================================== *)
(** ** The constructed object and its pretty properties                   *)
(* ===================================================================== *)

Section Constructed.
Context {T : Mappings} {B : Backend}.

Lemma _get_release_preserves_self : preserves_self _get_release.
Proof.
  unfold _get_release, _ogr_get_gdb_metadata. destruct arcpy_found; frame.
Qed.

Lemma _get_wkspc_type_preserves_self : preserves_self _get_wkspc_type.
Proof. unfold _get_wkspc_type. destruct arcpy_found; frame. Qed.

(** The three steps of a construction, one after the other. *)
Lemma new_Geodatabase_run path s :
  ∃ s1, self_dict s1 = {[ "path" := path ]} ∧
    match _get_release s1 with
    | (Raise e, s2) => new_Geodatabase path s = (Raise e, s2)
    | (Ok release, s2) =>
        self_dict s2 = {[ "path" := path ]} ∧
        match _get_wkspc_type
                {| self_dict := <["release" := release]> (self_dict s2);
                   env_workspace := env_workspace s2; stdout := stdout s2 |} with
        | (Raise e, s3) =>
            new_Geodatabase path s = (Raise e, s3) ∧
            self_dict s3 = <["release" := release]> {[ "path" := path ]}
        | (Ok wkspc_type, s3) =>
            ∃ s4, new_Geodatabase path s = (Ok tt, s4) ∧
                  self_dict s4 = <["wkspc_type" := wkspc_type]>
                                   (<["release" := release]> {[ "path" := path ]})
        end
    end.
Proof.
  set (s1 := {| self_dict := {[ "path" := path ]};
                env_workspace := env_workspace s; stdout := stdout s |}).
  assert (new_Geodatabase path s
          = match _get_release s1 with
            | (Raise e, s2) => (Raise e, s2)
            | (Ok release, s2) =>
                match _get_wkspc_type
                        {| self_dict := <["release" := release]> (self_dict s2);
                           env_workspace := env_workspace s2;
                           stdout := stdout s2 |} with
                | (Raise e, s3) => (Raise e, s3)
                | (Ok wkspc_type, s3) =>
                    (Ok tt, {| self_dict := <["wkspc_type" := wkspc_type]> (self_dict s3);
                               env_workspace := env_workspace s3;
                               stdout := stdout s3 |})
                end
            end) as ->.
  { unfold new_Geodatabase, __init__. rewrite bind_M. unfold set_self_attr at 1.
    rewrite bind_M.
    match goal with |- context [_get_release ?x] => change x with s1 end.
    destruct (_get_release s1) as [[release|e] s2]; [|done].
    rewrite bind_M. unfold set_self_attr at 1. rewrite bind_M.
    by destruct (_get_wkspc_type _) as [[wkspc_type|e] s3]. }
  exists s1. split; [done|].
  pose proof (_get_release_preserves_self s1) as Hframe.
  destruct (_get_release s1) as [[release|e] s2]; [|done].
  simpl in Hframe. split; [done|].
  match goal with |- context [_get_wkspc_type ?s2'] =>
    pose proof (_get_wkspc_type_preserves_self s2') as Hframe';
    destruct (_get_wkspc_type s2') as [[wkspc_type|e] s3]
  end; simpl in Hframe'; rewrite Hframe in Hframe'.
  - eexists. split; [done|]. simpl. by rewrite Hframe'.
  - done.
Qed.

(** X6.  A construction that succeeds leaves an object with exactly the
    three attributes [path], [release] and [wkspc_type], the first being
    the path it was given; on such an object [get_pretty_props] does not
    raise as long as the label table names only those attributes, and it
    shows the path under the label of [path]. *)
Theorem constructed_accessor_has_its_props (path : string) (s s' : pystate) :
  new_Geodatabase path s = (Ok tt, s') →
  dom (self_dict s') = {[ "path"; "release"; "wkspc_type" ]} ∧
  self_dict s' !! "path" = Some path ∧
  (Forall (fun kv => kv.1 ∈ ["path"; "release"; "wkspc_type"]) GDB_PROPS →
   ∃ od, get_pretty_props s' = (Ok od, s') ∧
         (NoDup GDB_PROPS.*2 → ∀ v, ("path", v) ∈ GDB_PROPS →
                                    OD.get v od = Some (VStr path))).
Proof.
  intros Hnew.
  destruct (new_Geodatabase_run path s) as (s1 & Hs1 & Hrun).
  destruct (_get_release s1) as [[release|e] s2]; [|by rewrite Hnew in Hrun].
  destruct Hrun as [Hs2 Hrun].
  destruct (_get_wkspc_type _) as [[wkspc_type|e] s3];
    [|destruct Hrun as [Hrun _]; by rewrite Hnew in Hrun].
  destruct Hrun as (s4 & Hrun & Hs4). rewrite Hnew in Hrun. injection Hrun as <-.
  assert (dom (self_dict s') = {[ "path"; "release"; "wkspc_type" ]}) as Hdom.
  { rewrite Hs4, !dom_insert_L, dom_singleton_L. set_solver. }
  assert (self_dict s' !! "path" = Some path) as Hpath.
  { rewrite Hs4, !lookup_insert_ne by done. apply lookup_singleton_eq. }
  split; [done|]. split; [done|]. intros Hkeys.
  unfold get_pretty_props. rewrite get_pretty_props_from.
  destruct (fill_props_ok (fun k => match self_dict s' !! k with
                                    | Some v => Ok (VStr v)
                                    | None => Raise (KeyError k)
                                    end) GDB_PROPS) as [od Hod].
  { eapply Forall_impl; [exact Hkeys|]. intros [k v] Hk. simpl in *.
    assert (is_Some (self_dict s' !! k)) as [x ->]; [|done].
    apply elem_of_dom. rewrite Hdom. set_solver. }
  exists od. split; [by rewrite <- Hod|]. intros Hnd v Hv.
  destruct (fill_props_get _ _ _ _ _ Hnd Hv Hod) as (x & Hx & Hget).
  rewrite Hpath in Hx. by injection Hx as <-.
Qed.

(** X7.  Construction-time failures are not caught, and they leave the
    object half built: when the construction raises, [path] has been set,
    [wkspc_type] has not, and no attribute other than [path] and [release]
    exists. *)
Theorem failed_construction_leaves_partial_object (path : string) (s s' : pystate)
    (e : exn) :
  new_Geodatabase path s = (Raise e, s') →
  self_dict s' !! "path" = Some path ∧
  self_dict s' !! "wkspc_type" = None ∧
  dom (self_dict s') ⊆ {[ "path"; "release" ]}.
Proof.
  intros Hnew.
  destruct (new_Geodatabase_run path s) as (s1 & Hs1 & Hrun).
  pose proof (_get_release_preserves_self s1) as Hframe.
  destruct (_get_release s1) as [[release|e'] s2]; simpl in Hframe.
  - destruct Hrun as [Hs2 Hrun].
    destruct (_get_wkspc_type _) as [[wkspc_type|e'] s3].
    + destruct Hrun as (s4 & Hrun & _). by rewrite Hnew in Hrun.
    + destruct Hrun as [Hrun Hs3]. rewrite Hnew in Hrun. injection Hrun as -> ->.
      rewrite Hs3. split; [|split].
      * rewrite lookup_insert_ne by done. apply lookup_singleton_eq.
      * rewrite lookup_insert_ne by done. by apply lookup_singleton_ne.
      * rewrite dom_insert_L, dom_singleton_L. set_solver.
  - rewrite Hnew in Hrun. injection Hrun as -> ->. rewrite Hframe, Hs1.
    split; [|split].
    + apply lookup_singleton_eq.
    + by apply lookup_singleton_ne.
    + rewrite dom_singleton_L. set_solver.
Qed.

(** X8.  [get_pretty_props] raises exactly [KeyError] for the first key
    of the label table that is not an attribute of [self], and touches
    nothing. *)
Theorem get_pretty_props_missing_attribute (s : pystate)
    (pre post : list (string * string)) (k v : string) :
  GDB_PROPS = pre ++ (k, v) :: post →
  Forall (fun kv => is_Some (self_dict s !! kv.1)) pre →
  self_dict s !! k = None →
  get_pretty_props s = (Raise (KeyError k), s).
Proof.
  intros Hprops Hpre Hk. unfold get_pretty_props.
  rewrite get_pretty_props_from, Hprops.
  assert (∀ od : OrderedDict,
            foldM (fun od '(k, v) =>
                     x ← match self_dict s !! k with
                         | Some v => Ok (VStr v)
                         | None => Raise (KeyError k)
                         end;
                     mret (OD.set v x od)) od (pre ++ (k, v) :: post)
            = Raise (KeyError k)) as ->; [|done].
  clear Hprops. induction Hpre as [|[k0 v0] pre [x Hx] _ IH]; intros od; simpl.
  - by rewrite Hk.
  - simpl in Hx. rewrite Hx. simpl. apply IH.
Qed.

End Constructed.

(* ===================================================================== *)
(** ** Release and workspace type                                         *)
(* ===================================================================== *)



Section ReleaseAndType.
Context {T : Mappings} {B : Backend}.

Lemma _ogr_get_gdb_metadata_run s p ds rows :
  self_dict s !! "path" = Some p → ogr_Open p = Some ds →
  ExecuteSQL_GDB_Items ds = Ok rows →
  _ogr_get_gdb_metadata s
  = (xml ← metadata_loop rows None;
     match xml with
     | Some x => Ok x
     | None => Raise UnboundLocalError
     end, s).
Proof.
  intros Hp Hds Hrows. unfold _ogr_get_gdb_metadata. rewrite bind_M.
  unfold self_attr at 1, lift, ogr_open. rewrite Hp, Hds. simpl. by rewrite Hrows.
Qed.

Lemma metadata_loop_break pre item post x xml0 :
  Forall (fun it => truthy it = true →
                    ∃ y, ET_fromstring (default "" it) = Ok y ∧ tag y ≠ "DEWorkspace")
         pre →
  truthy item = true → ET_fromstring (default "" item) = Ok x →
  tag x = "DEWorkspace" →
  metadata_loop (pre ++ item :: post) xml0 = Ok (Some x).
Proof.
  intros Hpre Hitem Hx Htag. revert xml0.
  induction Hpre as [|it pre Hit _ IH]; intros xml0; simpl.
  - rewrite Hitem, Hx. simpl. by rewrite decide_True.
  - destruct (truthy it); [|apply IH].
    destruct (Hit eq_refl) as (y & -> & Hy). simpl.
    rewrite decide_False by done. apply IH.
Qed.

Lemma metadata_loop_no_workspace rows defs xml0 :
  Forall2 (fun item xml => ET_fromstring (default "" item) = Ok xml)
          (defined_rows rows) defs →
  Forall (fun xml => tag xml ≠ "DEWorkspace") defs →
  metadata_loop rows xml0 = Ok (match last defs with
                                | Some x => Some x
                                | None => xml0
                                end).
Proof.
  unfold defined_rows. revert defs xml0.
  induction rows as [|item rows IH]; intros defs xml0 Hdefs Htags.
  - by inversion Hdefs.
  - rewrite filter_cons in Hdefs. simpl. destruct (truthy item) eqn:Hitem.
    + rewrite decide_True in Hdefs by done.
      inversion Hdefs as [|? x ? defs' Hx Hrest]; subst.
      apply Forall_cons in Htags as [Hx' Htags]. rewrite Hx. simpl.
      rewrite decide_False by done. rewrite (IH defs' _ Hrest Htags), last_cons.
      by destruct (last defs').
    + rewrite decide_False in Hdefs by done. by apply IH.
Qed.

(** X9.  [_ogr_get_gdb_metadata] stops at the first definition whose root
    tag is [DEWorkspace] and returns it: the rows before it must parse,
    the rows after it are never looked at, so nothing in them (a second
    workspace definition, text that does not parse) changes the result. *)
Theorem metadata_is_first_DEWorkspace (s : pystate) (p : string) (ds : DataSource)
    (pre post : list (option string)) (item : option string) (x : Element) :
  self_dict s !! "path" = Some p → ogr_Open p = Some ds →
  ExecuteSQL_GDB_Items ds = Ok (pre ++ item :: post) →
  Forall (fun it => truthy it = true →
                    ∃ y, ET_fromstring (default "" it) = Ok y ∧ tag y ≠ "DEWorkspace")
         pre →
  truthy item = true → ET_fromstring (default "" item) = Ok x →
  tag x = "DEWorkspace" →
  _ogr_get_gdb_metadata s = (Ok x, s).
Proof.
  intros Hp Hds Hrows Hpre Hitem Hx Htag.
  rewrite (_ogr_get_gdb_metadata_run s p ds _ Hp Hds Hrows).
  by rewrite (metadata_loop_break pre item post x None Hpre Hitem Hx Htag).
Qed.

(** X10.  When the catalog holds no [DEWorkspace] definition the loop runs
    to its end and [_ogr_get_gdb_metadata] returns whatever definition it
    parsed last; when the catalog holds no definition at all it raises
    [UnboundLocalError], its result variable never having been bound. *)
Theorem metadata_without_DEWorkspace (s : pystate) (p : string) (ds : DataSource)
    (rows : list (option string)) (defs : list Element) :
  self_dict s !! "path" = Some p → ogr_Open p = Some ds →
  ExecuteSQL_GDB_Items ds = Ok rows →
  Forall2 (fun item xml => ET_fromstring (default "" item) = Ok xml)
          (defined_rows rows) defs →
  Forall (fun xml => tag xml ≠ "DEWorkspace") defs →
  _ogr_get_gdb_metadata s
  = (match last defs with
     | Some x => Ok x
     | None => Raise UnboundLocalError
     end, s).
Proof.
  intros Hp Hds Hrows Hdefs Htags.
  rewrite (_ogr_get_gdb_metadata_run s p ds _ Hp Hds Hrows).
  rewrite (metadata_loop_no_workspace rows defs None Hdefs Htags).
  by destruct (last defs).
Qed.

(** X11.  Without [arcpy], given the metadata definition, the release is
    the label of the version triplet [major,minor,bugfix] in [GDB_RELEASE]
    and [''] for a triplet the table does not know; a version element that
    is absent makes the call raise [AttributeError], one that is present
    but empty [TypeError].  It never raises [KeyError]. *)
Theorem ogr_release_of_version_triplet (s : pystate) (xml : Element) :
  arcpy_found = false → _ogr_get_gdb_metadata s = (Ok xml, s) →
  _get_release s
  = (match find xml "MajorVersion", find xml "MinorVersion",
           find xml "BugfixVersion" with
     | Some major, Some minor, Some bugfix =>
         match text major, text minor, text bugfix with
         | Some a, Some b, Some c =>
             Ok (default "" (GDB_RELEASE !! (a ++ "," ++ b ++ "," ++ c)%string))
         | _, _, _ => Raise TypeError
         end
     | _, _, _ => Raise AttributeError
     end, s).
Proof.
  intros Harc Hxml. unfold _get_release. rewrite Harc, bind_M, Hxml.
  unfold lift, find_text, join3.
  destruct (find xml "MajorVersion") as [major|]; [|done].
  destruct (find xml "MinorVersion") as [minor|]; [|done].
  destruct (find xml "BugfixVersion") as [bugfix|]; [|done]. simpl.
  by destruct (text major), (text minor), (text bugfix).
Qed.




End ReleaseAndType.

(* ===================================================================== *)
(** ** One mapping for each domain                                        *)
(* ===================================================================== *)

Lemma filed_domains_append k x g :
  filed_domains (defaultdict_append k x g) ≡ₚ filed_domains g ++ [(k, x)].
Proof.
  unfold filed_domains, defaultdict_append.
  destruct (g !! k) as [ds|] eqn:Hk; simpl.
  - rewrite <- insert_delete_eq.
    rewrite map_to_list_insert by apply lookup_delete_eq.
    rewrite <- (map_to_list_delete g k ds Hk). rewrite !bind_cons, fmap_app.
    simpl. rewrite <- !app_assoc. apply Permutation_app_head.
    apply Permutation_app_comm.
  - rewrite map_to_list_insert by done. rewrite bind_cons. simpl.
    apply Permutation_cons_append.
Qed.

Section DomainCount.
Context {T : Mappings} {B : Backend}.

(** What the scan has filed is, as a multiset, what had been filed before
    together with the domain definitions of the rows, each once. *)
Lemma domains_scan_filed rows defs g0 g :
  Forall2 (fun item xml => ET_fromstring (default "" item) = Ok xml)
          (defined_rows rows) defs →
  foldM domains_step g0 rows = Ok g →
  filed_domains g
  ≡ₚ filed_domains g0
     ++ ((fun xml => (tag xml, xml)) <$> filter (fun xml => tag xml ∈ domain_tags) defs).
Proof.
  unfold defined_rows. revert defs g0.
  induction rows as [|item rows IH]; intros defs g0 Hdefs.
  - inversion Hdefs; subst. intros [= <-]. simpl. by rewrite app_nil_r.
  - rewrite foldM_cons. rewrite filter_cons in Hdefs.
    destruct (truthy item) eqn:Hitem.
    + rewrite decide_True in Hdefs by done.
      inversion Hdefs as [|? xml ? defs' Hxml Hrest]; subst.
      rewrite (domains_step_parse _ _ _ Hitem Hxml), result_bind_Ok.
      intros Hg. rewrite (IH _ _ Hrest Hg), filter_cons.
      case_bool_decide as Htag.
      * rewrite decide_True by done.
        rewrite filed_domains_append, fmap_cons, <- app_assoc. done.
      * by rewrite decide_False by done.
    + rewrite decide_False in Hdefs by done.
      rewrite (domains_step_skip _ _ Hitem), result_bind_Ok. by apply IH.
Qed.

(** X13.  On the fallback path, once the catalog is read and its
    definitions parse (to [defs]), whenever [get_domains] returns it returns
    exactly one mapping for each definition whose root tag is a domain tag:
    the mappings are built, one each, from those definitions (in the order
    the dict yields them), so there are as many mappings as domain
    definitions, and no mapping for any other definition. *)
Theorem get_domains_ogr_one_mapping_per_domain (s : pystate) (p : string)
    (ds : DataSource) (rows : list (option string)) (defs : list Element)
    (l : list OrderedDict) :
  arcpy_found = false →
  self_dict s !! "path" = Some p → ogr_Open p = Some ds →
  ExecuteSQL_GDB_Items ds = Ok rows →
  Forall2 (fun item xml => ET_fromstring (default "" item) = Ok xml)
          (defined_rows rows) defs →
  fst (get_domains s) = Ok l →
  (∃ walked,
     walked ≡ₚ (fun xml => (tag xml, xml))
                 <$> filter (fun xml => tag xml ∈ domain_tags) defs ∧
     Forall2 (fun td od => ogr_domain_props td.1 td.2 = Ok od) walked l) ∧
  length l = length (filter (fun xml => tag xml ∈ domain_tags) defs).
Proof.
  intros Harc Hp Hds Hrows Hdefs Hl.
  destruct (domains_scan rows defs ∅ Hdefs) as (g & Hg & _).
  assert (fst (_ogr_get_domains s) = Ok g) as Hscan.
  { unfold _ogr_get_domains. rewrite bind_M. unfold self_attr at 1, lift, ogr_open.
    rewrite Hp, Hds. simpl. by rewrite Hrows. }
  rewrite (get_domains_ogr s g Harc Hscan) in Hl. apply mapM_Ok in Hl.
  pose proof (domains_scan_filed rows defs ∅ g Hdefs Hg) as Hfiled.
  assert (filed_domains (∅ : gmap string (list Element)) = []) as Hempty
    by (unfold filed_domains; by rewrite map_to_list_empty).
  rewrite Hempty in Hfiled. simpl in Hfiled.
  split; [by exists (filed_domains g)|].
  rewrite <- (Forall2_length _ _ _ Hl), Hfiled. apply length_fmap.
Qed.

(** X14.  On the primary path, when reading an attribute of a listed
    domain either succeeds or fails with [AttributeError], [get_domains]
    returns one mapping for each listed domain, in listing order, and the
    entry under each label is the attribute of its key, or [''] when the
    domain has no such attribute. *)
Theorem get_domains_arcpy_defaults_missing_attributes (s : pystate) (p : string)
    (domains : list PyObject) :
  arcpy_found = true → self_dict s !! "path" = Some p →
  arcpy_da_ListDomains p = Ok domains →
  NoDup GDB_DOMAIN_PROPS.*2 →
  (∀ domain k e, domain ∈ domains → py_getattr domain k = Raise e →
                 e = AttributeError) →
  ∃ l, get_domains s = (Ok l, s) ∧
       Forall2 (fun domain od =>
                  ∀ k v, (k, v) ∈ GDB_DOMAIN_PROPS →
                         OD.get v od = Some (match py_getattr domain k with
                                             | Ok x => x
                                             | Raise _ => VStr ""
                                             end))
               domains l.
Proof.
  intros Harc Hp Hdomains Hnd Hattr.
  assert (∀ domain k, domain ∈ domains →
            getattr domain k (VStr "") = Ok (match py_getattr domain k with
                                             | Ok x => x
                                             | Raise _ => VStr ""
                                             end)) as Hget.
  { intros domain k Hin. unfold getattr.
    destruct (py_getattr domain k) as [x|e] eqn:Hk; [done|].
    by rewrite (Hattr domain k e Hin Hk). }
  destruct (mapM_total (props_of GDB_DOMAIN_PROPS) domains) as [l Hl].
  { apply Forall_forall. intros domain Hin.
    apply is_ok_true, fill_props_ok, Forall_forall. intros [k v] _. simpl.
    by rewrite (Hget domain k Hin). }
  exists l. split.
  - unfold get_domains. rewrite Harc, bind_M. unfold self_attr at 1, lift.
    rewrite Hp, Hdomains. simpl. by rewrite foldM_append, Hl.
  - apply mapM_Ok in Hl. apply Forall2_same_length_lookup. split.
    + by eapply Forall2_length.
    + intros i domain od Hi Hod k v Hkv.
      pose proof (Forall2_lookup_lr _ _ _ _ _ _ Hl Hi Hod) as Hprops.
      destruct (fill_props_get _ _ _ _ _ Hnd Hkv Hprops) as (x & Hx & Hv).
      rewrite Hget in Hx by (by eapply list_elem_of_lookup_2).
      by injection Hx as <-.
Qed.

(** X15.  On the fallback path, a property read from a plain sub-element
    (every key but [domainType], [range] and [codedValues]) is translated
    through [OGR_DOMAIN_PROPS_MAPPINGS] when its text has an entry there,
    shown unchanged when it has none, and [''] when the element is empty. *)
Theorem get_domains_ogr_translates_known_texts (s : pystate)
    (g : gmap string (list Element)) (l : list OrderedDict)
    (t : string) (ds : list Element) (domain c : Element) (k v : string) :
  arcpy_found = false →
  fst (_ogr_get_domains s) = Ok g → fst (get_domains s) = Ok l →
  g !! t = Some ds → domain ∈ ds →
  NoDup OGR_GDB_DOMAIN_PROPS.*2 → (k, v) ∈ OGR_GDB_DOMAIN_PROPS →
  k ∉ ["domainType"; "range"; "codedValues"] →
  find domain k = Some c →
  ∃ od, od ∈ l ∧ ogr_domain_props t domain = Ok od ∧
        OD.get v od
        = Some (VStr (match text c with
                      | None | Some "" => ""
                      | Some txt => default txt (OGR_DOMAIN_PROPS_MAPPINGS !! txt)
                      end)).
Proof.
  intros Harc Hg Hl Ht Hdomain Hnd Hkv Hk Hc.
  destruct (get_domains_ogr_has s g l t ds domain Harc Hg Hl Ht Hdomain)
    as (od & Hin & Hod).
  exists od. split; [done|]. split; [done|].
  destruct (fill_props_get _ _ _ _ _ Hnd Hkv Hod) as (x & Hx & Hv).
  rewrite Hv. f_equal. revert Hx. unfold ogr_domain_prop.
  rewrite !decide_False by set_solver.
  rewrite (find_text_Some _ _ _ Hc). simpl.
  destruct (text c) as [[|a txt]|]; simpl; by intros [= <-].
Qed.

End DomainCount.

(* ===================================================================== *)
(** ** The further properties on demo.gdb                                 *)
(* ===================================================================== *)

Lemma get_tables_arcpy_accounts_for_every_table_witness :
  (@arcpy_found (Demo.arcpy ["owners"]) = true ∧
   self_dict Demo.state !! "path" = Some Demo.gdb ∧
   @arcpy_ListTables (Demo.arcpy ["owners"]) (Some Demo.gdb) = Ok ["owners"]) ∧
  ∃ tables notices,
    get_tables (T:=Demo.mappings) (B:=Demo.arcpy ["owners"]) Demo.state
    = (Ok tables, after Demo.state (Some Demo.gdb) notices) ∧
    length tables + length notices = 1.
Proof.
  split; [by repeat split|].
  destruct (get_tables_arcpy_accounts_for_every_table (T:=Demo.mappings)
              (B:=Demo.arcpy ["owners"]) Demo.state Demo.gdb ["owners"]
              eq_refl eq_refl eq_refl) as (tables & notices & Hrun & _ & _ & Hlen).
  by exists tables, notices.
Defined.

Lemma ogr_layers_split_by_geometry_column_witness :
  (@arcpy_found Demo.fallback = false ∧
   self_dict Demo.state !! "path" = Some Demo.gdb ∧
   @ogr_Open Demo.fallback Demo.gdb = Some (Demo.datasource (Demo.Speed "1" "5"))) ∧
  layer_names false (Demo.datasource (Demo.Speed "1" "5"))
  ++ layer_names true (Demo.datasource (Demo.Speed "1" "5"))
  ≡ₚ ["roads"; "rails"; "parcels"; "owners"].
Proof.
  split; [by repeat split|].
  apply (ogr_layers_split_by_geometry_column (T:=Demo.mappings) (B:=Demo.fallback)
           Demo.state Demo.gdb (Demo.datasource (Demo.Speed "1" "5"))
           eq_refl eq_refl eq_refl).
Defined.

Lemma ogr_unopenable_path_raises_witness :
  (@arcpy_found Demo.fallback = false ∧
   self_dict Demo.nowhere !! "path" = Some "nowhere.gdb" ∧
   @ogr_Open Demo.fallback "nowhere.gdb" = None) ∧
  get_tables (T:=Demo.mappings) (B:=Demo.fallback) Demo.nowhere
  = (Raise AttributeError, Demo.nowhere).
Proof.
  split; [by repeat split|].
  apply (ogr_unopenable_path_raises (T:=Demo.mappings) (B:=Demo.fallback)
           Demo.nowhere "nowhere.gdb" eq_refl eq_refl eq_refl).
Defined.


Lemma get_feature_classes_arcpy_leaves_workspace_at_root_witness :
  (@arcpy_found Demo.primary = true ∧
   self_dict Demo.state !! "path" = Some Demo.gdb) ∧
  ∃ w, snd (get_feature_classes (T:=Demo.mappings) (B:=Demo.primary) Demo.state)
       = after Demo.state w [].
Proof.
  split; [by split|].
  apply (get_feature_classes_arcpy_leaves_workspace_at_root (T:=Demo.mappings)
           (B:=Demo.primary) Demo.state Demo.gdb eq_refl eq_refl).
Defined.

Lemma constructed_accessor_has_its_props_witness :
  new_Geodatabase (T:=Demo.mappings) (B:=Demo.fallback) Demo.gdb Demo.nowhere
  = (Ok tt, Demo.state) ∧
  dom (self_dict Demo.state) = {[ "path"; "release"; "wkspc_type" ]} ∧
  self_dict Demo.state !! "path" = Some Demo.gdb.
Proof.
  assert (new_Geodatabase (T:=Demo.mappings) (B:=Demo.fallback) Demo.gdb Demo.nowhere
          = (Ok tt, Demo.state)) as Hnew by (vm_compute; reflexivity).
  split; [exact Hnew|].
  destruct (constructed_accessor_has_its_props (T:=Demo.mappings) (B:=Demo.fallback)
              Demo.gdb Demo.nowhere Demo.state Hnew) as (Hdom & Hpath & _).
  by split.
Defined.

Lemma failed_construction_leaves_partial_object_witness :
  new_Geodatabase (T:=Demo.mappings) (B:=Demo.catalog_only []) Demo.gdb Demo.nowhere
  = (Raise UnboundLocalError, Demo.half_built) ∧
  self_dict Demo.half_built !! "path" = Some Demo.gdb ∧
  self_dict Demo.half_built !! "wkspc_type" = None.
Proof.
  assert (new_Geodatabase (T:=Demo.mappings) (B:=Demo.catalog_only []) Demo.gdb
            Demo.nowhere = (Raise UnboundLocalError, Demo.half_built)) as Hnew
    by (vm_compute; reflexivity).
  split; [exact Hnew|].
  destruct (failed_construction_leaves_partial_object (T:=Demo.mappings)
              (B:=Demo.catalog_only []) Demo.gdb Demo.nowhere Demo.half_built
              UnboundLocalError Hnew) as (Hpath & Htype & _).
  by split.
Defined.

Lemma get_pretty_props_missing_attribute_witness :
  (@GDB_PROPS Demo.mappings
   = [("path", "Path")] ++ ("release", "Release") :: [("wkspc_type", "Workspace type")] ∧
   Forall (fun kv => is_Some (self_dict Demo.half_built !! kv.1)) [("path", "Path")] ∧
   self_dict Demo.half_built !! "release" = None) ∧
  get_pretty_props (T:=Demo.mappings) Demo.half_built
  = (Raise (KeyError "release"), Demo.half_built).
Proof.
  assert (Forall (fun kv : string * string =>
                    is_Some (self_dict Demo.half_built !! kv.1)) [("path", "Path")])
    as Hpre by (repeat constructor; by eexists).
  split; [by repeat split|].
  apply (get_pretty_props_missing_attribute (T:=Demo.mappings) Demo.half_built
           [("path", "Path")] [("wkspc_type", "Workspace type")] "release" "Release"
           eq_refl Hpre eq_refl).
Defined.

Lemma metadata_is_first_DEWorkspace_witness :
  (self_dict Demo.state !! "path" = Some Demo.gdb ∧
   @ogr_Open (Demo.catalog_only [Some "<DETableInfo>"; Some "<DEWorkspace>";
                                 Some "<unparseable>"]) Demo.gdb
   = Some {| layers := [];
             ExecuteSQL_GDB_Items :=
               Ok ([Some "<DETableInfo>"] ++ Some "<DEWorkspace>"
                   :: [Some "<unparseable>"]) |} ∧
   truthy (Some "<DEWorkspace>") = true ∧
   Demo.parse (Demo.Speed "1" "5") "<DEWorkspace>" = Ok Demo.DEWorkspace ∧
   tag Demo.DEWorkspace = "DEWorkspace") ∧
  _ogr_get_gdb_metadata
    (B:=Demo.catalog_only [Some "<DETableInfo>"; Some "<DEWorkspace>";
                           Some "<unparseable>"]) Demo.state
  = (Ok Demo.DEWorkspace, Demo.state).
Proof.
  assert (Forall (fun it => truthy it = true →
                    ∃ y, Demo.parse (Demo.Speed "1" "5") (default "" it) = Ok y
                         ∧ tag y ≠ "DEWorkspace") [Some "<DETableInfo>"]) as Hpre.
  { repeat constructor. intros _. by exists Demo.DETable. }
  split; [by repeat split|].
  apply (metadata_is_first_DEWorkspace
           (B:=Demo.catalog_only [Some "<DETableInfo>"; Some "<DEWorkspace>";
                                  Some "<unparseable>"])
           Demo.state Demo.gdb
           {| layers := [];
              ExecuteSQL_GDB_Items :=
                Ok ([Some "<DETableInfo>"] ++ Some "<DEWorkspace>"
                    :: [Some "<unparseable>"]) |}
           [Some "<DETableInfo>"] [Some "<unparseable>"] (Some "<DEWorkspace>")
           Demo.DEWorkspace eq_refl eq_refl eq_refl Hpre eq_refl eq_refl eq_refl).
Defined.

Lemma metadata_without_DEWorkspace_witness :
  (self_dict Demo.state !! "path" = Some Demo.gdb ∧
   @ogr_Open (Demo.catalog_only [Some "<DETableInfo>"; None; Some "<RoadType>"])
     Demo.gdb
   = Some {| layers := [];
             ExecuteSQL_GDB_Items :=
               Ok [Some "<DETableInfo>"; None; Some "<RoadType>"] |} ∧
   Forall (fun xml => tag xml ≠ "DEWorkspace") [Demo.DETable; Demo.RoadType]) ∧
  _ogr_get_gdb_metadata
    (B:=Demo.catalog_only [Some "<DETableInfo>"; None; Some "<RoadType>"]) Demo.state
  = (Ok Demo.RoadType, Demo.state).
Proof.
  assert (Forall2 (fun item xml =>
                     Demo.parse (Demo.Speed "1" "5") (default "" item) = Ok xml)
            (defined_rows [Some "<DETableInfo>"; None; Some "<RoadType>"])
            [Demo.DETable; Demo.RoadType]) as Hdefs by (repeat constructor).
  assert (Forall (fun xml => tag xml ≠ "DEWorkspace") [Demo.DETable; Demo.RoadType])
    as Htags by (by repeat constructor).
  split; [by repeat split|].
  apply (metadata_without_DEWorkspace
           (B:=Demo.catalog_only [Some "<DETableInfo>"; None; Some "<RoadType>"])
           Demo.state Demo.gdb
           {| layers := [];
              ExecuteSQL_GDB_Items := Ok [Some "<DETableInfo>"; None; Some "<RoadType>"] |}
           [Some "<DETableInfo>"; None; Some "<RoadType>"]
           [Demo.DETable; Demo.RoadType] eq_refl eq_refl eq_refl Hdefs Htags).
Defined.

Lemma ogr_release_of_version_triplet_witness :
  (@arcpy_found Demo.fallback = false ∧
   _ogr_get_gdb_metadata (B:=Demo.fallback) Demo.state
   = (Ok Demo.DEWorkspace, Demo.state)) ∧
  _get_release (T:=Demo.mappings) (B:=Demo.fallback) Demo.state
  = (Ok "10.0", Demo.state).
Proof.
  assert (_ogr_get_gdb_metadata (B:=Demo.fallback) Demo.state
          = (Ok Demo.DEWorkspace, Demo.state)) as Hxml by (vm_compute; reflexivity).
  split; [by split|].
  exact (ogr_release_of_version_triplet (T:=Demo.mappings) (B:=Demo.fallback)
           Demo.state Demo.DEWorkspace eq_refl Hxml).
Defined.


Lemma get_domains_ogr_one_mapping_per_domain_witness :
  (@arcpy_found Demo.fallback = false ∧
   self_dict Demo.state !! "path" = Some Demo.gdb ∧
   @ogr_Open Demo.fallback Demo.gdb = Some (Demo.datasource (Demo.Speed "1" "5")) ∧
   Forall2 (fun item xml => @ET_fromstring Demo.fallback (default "" item) = Ok xml)
           (defined_rows [Some "<DEWorkspace>"; None; Some "<DETableInfo>";
                          Some "<RoadType>"; Some ""; Some "<Speed>"])
           [Demo.DEWorkspace; Demo.DETable; Demo.RoadType; Demo.Speed "1" "5"]) ∧
  ∃ l, fst (get_domains (T:=Demo.mappings) (B:=Demo.fallback) Demo.state) = Ok l ∧
       length l = 2.
Proof.
  assert (Forall2 (fun item xml =>
                     @ET_fromstring Demo.fallback (default "" item) = Ok xml)
            (defined_rows [Some "<DEWorkspace>"; None; Some "<DETableInfo>";
                           Some "<RoadType>"; Some ""; Some "<Speed>"])
            [Demo.DEWorkspace; Demo.DETable; Demo.RoadType; Demo.Speed "1" "5"])
    as Hdefs by (repeat constructor).
  split; [by repeat split|].
  set (l := match fst (get_domains (T:=Demo.mappings) (B:=Demo.fallback)
                         Demo.state) with
            | Ok l => l
            | Raise _ => []
            end).
  assert (fst (get_domains (T:=Demo.mappings) (B:=Demo.fallback) Demo.state) = Ok l)
    as Hl by (vm_compute; reflexivity).
  exists l. split; [exact Hl|].
  destruct (get_domains_ogr_one_mapping_per_domain (T:=Demo.mappings)
              (B:=Demo.fallback) Demo.state Demo.gdb
              (Demo.datasource (Demo.Speed "1" "5")) _ _ l
              eq_refl eq_refl eq_refl eq_refl Hdefs Hl) as [_ Hlen].
  exact Hlen.
Defined.

Lemma get_domains_arcpy_defaults_missing_attributes_witness :
  (@arcpy_found Demo.primary = true ∧
   self_dict Demo.state !! "path" = Some Demo.gdb ∧
   @arcpy_da_ListDomains Demo.primary Demo.gdb = Ok Demo.listed_domains ∧
   NoDup (@GDB_DOMAIN_PROPS Demo.mappings).*2 ∧
   (∀ domain k e, domain ∈ Demo.listed_domains →
                  py_getattr domain k = Raise e → e = AttributeError)) ∧
  ∃ l, get_domains (T:=Demo.mappings) (B:=Demo.primary) Demo.state
       = (Ok l, Demo.state) ∧
       length l = 1.
Proof.
  assert (NoDup (@GDB_DOMAIN_PROPS Demo.mappings).*2) as Hnd
    by (simpl; repeat (apply NoDup_cons; split; [set_solver|]); apply NoDup_nil_2).
  assert (∀ domain k e, domain ∈ Demo.listed_domains →
                        py_getattr domain k = Raise e → e = AttributeError) as Hattr.
  { intros domain k e ->%list_elem_of_singleton. simpl.
    repeat case_decide; try discriminate. by intros [= <-]. }
  split; [by repeat split|].
  destruct (get_domains_arcpy_defaults_missing_attributes (T:=Demo.mappings)
              (B:=Demo.primary) Demo.state Demo.gdb Demo.listed_domains
              eq_refl eq_refl eq_refl Hnd Hattr) as (l & Hl & Hall).
  exists l. split; [exact Hl|]. symmetry. exact (Forall2_length _ _ _ Hall).
Defined.

Lemma get_domains_ogr_translates_known_texts_witness :
  (@arcpy_found Demo.fallback = false ∧
   fst (_ogr_get_domains (B:=Demo.fallback) Demo.state) = Ok Demo.scanned ∧
   Demo.scanned !! "GPCodedValueDomain2" = Some [Demo.RoadType] ∧
   NoDup (@OGR_GDB_DOMAIN_PROPS Demo.mappings).*2 ∧
   ("DomainName", "Name") ∈ @OGR_GDB_DOMAIN_PROPS Demo.mappings ∧
   ("DomainName" ∉ ["domainType"; "range"; "codedValues"]) ∧
   find Demo.RoadType "DomainName" = Some (Demo.leaf "DomainName" "RoadType")) ∧
  ∃ l od,
    fst (get_domains (T:=Demo.mappings) (B:=Demo.fallback) Demo.state) = Ok l ∧
    od ∈ l ∧ OD.get "Name" od = Some (VStr "RoadType").
Proof.
  assert (NoDup (@OGR_GDB_DOMAIN_PROPS Demo.mappings).*2) as Hnd
    by (simpl; repeat (apply NoDup_cons; split; [set_solver|]); apply NoDup_nil_2).
  assert (("DomainName", "Name") ∈ @OGR_GDB_DOMAIN_PROPS Demo.mappings) as Hkv
    by (simpl; set_solver).
  assert ("DomainName" ∉ ["domainType"; "range"; "codedValues"]) as Hk by set_solver.
  assert (fst (_ogr_get_domains (B:=Demo.fallback) Demo.state) = Ok Demo.scanned)
    as Hg by (vm_compute; reflexivity).
  assert (Demo.scanned !! "GPCodedValueDomain2" = Some [Demo.RoadType]) as Ht
    by (vm_compute; reflexivity).
  split; [by repeat split|].
  set (l := match fst (get_domains (T:=Demo.mappings) (B:=Demo.fallback)
                         Demo.state) with
            | Ok l => l
            | Raise _ => []
            end).
  assert (fst (get_domains (T:=Demo.mappings) (B:=Demo.fallback) Demo.state) = Ok l)
    as Hl by (vm_compute; reflexivity).
  destruct (get_domains_ogr_translates_known_texts (T:=Demo.mappings)
              (B:=Demo.fallback) Demo.state Demo.scanned l "GPCodedValueDomain2"
              [Demo.RoadType] Demo.RoadType (Demo.leaf "DomainName" "RoadType")
              "DomainName" "Name" eq_refl Hg Hl Ht (list_elem_of_here _ _)
              Hnd Hkv Hk eq_refl) as (od & Hin & _ & Hget).
  exists l, od. split; [exact Hl|]. split; [exact Hin|]. exact Hget.
Defined.
